(** * Parameter validation of the VK client: a shallow embedding

    The development follows [required_params.py] (the rule classes, the
    [check_params] decorator) and the part of [vk/vk.py] and [vk/methods.py]
    that sends a request.  Python objects are records passed explicitly,
    attribute assignment returns the updated record, [print] and
    [requests.request] leave an event in a trace, and [raise] is a result
    constructor. *)

From Stdlib Require Import ZArith String Ascii.
From stdpp Require Import base option list gmap sets strings.

Open Scope string_scope.
Open Scope list_scope.

(** ** Python values *)

(** Values stored under a parameter name. *)
Inductive scalar :=
| SNone
| SInt (z : Z)
| SStr (s : string).

(** A parameter container: the [dict] every operation of [VkApi] is
    annotated with. *)
Abbreviation dict := (gmap string scalar).

(** What a keyword argument can carry: [None] or a parameter container. *)
Inductive pyval :=
| PyNone
| PyDict (d : dict).

(** [self.params]: the value of [params or ()], either the (non-empty)
    container that was passed or the empty tuple. *)
Inductive container :=
| EmptyTuple
| Dict (d : dict).

(** [bool(v)] for the values above: [None] and the empty dict are falsy. *)
Definition truthy (v : pyval) : bool :=
  match v with
  | PyNone => false
  | PyDict d => negb (bool_decide (d = ∅))
  end.

(** [params or ()] *)
Definition or_empty_tuple (params : pyval) : container :=
  match params with
  | PyNone => EmptyTuple
  | PyDict d => if truthy (PyDict d) then Dict d else EmptyTuple
  end.

(** [name in c]: key membership for a dict, always false for [()]. *)
Definition contains (c : container) (name : string) : bool :=
  match c with
  | EmptyTuple => false
  | Dict d => bool_decide (is_Some (d !! name))
  end.

(** [bool(seq)] for a tuple or list held in an optional attribute:
    [None] and the empty sequence are falsy. *)
Definition seq_truthy {A} (o : option (list A)) : bool :=
  match o with
  | None | Some [] => false
  | Some (_ :: _) => true
  end.

(** [template.format(arg)] for a template whose only replacement field is
    an anonymous [{}]: the field is replaced by the argument and the rest
    of the template is kept.  (Both templates of the source are of this
    form; doubled braces and named fields do not occur.) *)
Fixpoint format (template arg : string) : string :=
  match template with
  | EmptyString => EmptyString
  | String "{" (String "}" rest) => (arg ++ rest)%string
  | String c rest => String c (format rest arg)
  end.

(** [sep.join(items)] *)
Definition join (sep : string) (items : list string) : string :=
  String.concat sep items.

(** ** The configuration and the events *)

(** The keyword bag given to the decorator, [**parameters].  The two
    projections stand for [parameters.get('required_params')] and
    [parameters.get('or_params')]; a key that was not supplied reads
    as [None]. *)
Record parameters := Parameters {
  get_required_params : option (list string);
  get_or_params : option (list (list string));
}.

(** What the program leaves in the world: a line printed by
    [print(f'{self.errors=}')], recorded by the tuple it shows, or a request
    sent through [requests.request]. *)
Inductive event :=
| Printed (errors : list string)
| Requested (http_method : option string) (url : string).

(** ** class BaseCheck *)
Module BaseCheck.

Record t := Build {
  params : container;
  _BaseCheck__errors : list string;
  _error_status_code : Z;
}.

(** [__init__]: the keyword bag is not read here. *)
Definition __init__ (params : pyval) (_ : parameters) : t :=
  {| params := or_empty_tuple params;
     _BaseCheck__errors := [];
     _error_status_code := 400 |}.

(** property [errors]: [tuple(self.__errors)] *)
Definition errors (self : t) : list string := _BaseCheck__errors self.

(** setter of [errors]: [self.__errors.append(val)] *)
Definition set_errors (self : t) (val : string) : t :=
  {| params := params self;
     _BaseCheck__errors := _BaseCheck__errors self ++ [val];
     _error_status_code := _error_status_code self |}.

(** property [error_status_code] *)
Definition error_status_code (self : t) : Z := _error_status_code self.

(** setter of [error_status_code] *)
Definition set_error_status_code (self : t) (val : Z) : t :=
  {| params := params self;
     _BaseCheck__errors := _BaseCheck__errors self;
     _error_status_code := val |}.

End BaseCheck.

(** ** class RequiredParamsCheck(BaseCheck) *)
Module RequiredParamsCheck.

Definition error_message : string :=
  "Отсутствует обязательный параметр {}".

Record t := Build {
  base : BaseCheck.t;
  required_params : option (list string);
}.

Definition __init__ (params : pyval) (parameters : parameters) : t :=
  {| base := BaseCheck.__init__ params parameters;
     required_params := get_required_params parameters |}.

Definition errors (self : t) : list string := BaseCheck.errors (base self).

Definition set_errors (self : t) (val : string) : t :=
  {| base := BaseCheck.set_errors (base self) val;
     required_params := required_params self |}.

Definition _check_param (self : t) (required_param : string) : bool :=
  if contains (BaseCheck.params (base self)) required_param then true
  else false.

(** One turn of the [for] loop of [check_params]. *)
Definition check_step (self : t) (required_param : string) : t :=
  if negb (_check_param self required_param)
  then set_errors self (format error_message required_param)
  else self.

Definition check_params (self : t) : option (list string) * t :=
  if negb (seq_truthy (required_params self)) then (None, self)
  else
    let self' := fold_left check_step (default [] (required_params self)) self in
    (Some (errors self'), self').

End RequiredParamsCheck.

(** ** class OrParamsCheck(BaseCheck) *)
Module OrParamsCheck.

Definition error_message : string :=
  "Отсутвтвует как минимум один из обязательных параметров {}".

Record t := Build {
  base : BaseCheck.t;
  or_params : option (list (list string));
}.

Definition __init__ (params : pyval) (parameters : parameters) : t :=
  {| base := BaseCheck.__init__ params parameters;
     or_params := get_or_params parameters |}.

Definition errors (self : t) : list string := BaseCheck.errors (base self).

Definition set_errors (self : t) (val : string) : t :=
  {| base := BaseCheck.set_errors (base self) val;
     or_params := or_params self |}.

(** [any(param in self.params for param in or_params)] *)
Definition _check_param (self : t) (or_params : list string) : bool :=
  existsb (contains (BaseCheck.params (base self))) or_params.

(** One turn of the [for] loop of [check_params]: the state is the
    instance together with what has been printed so far. *)
Definition check_step (st : t * list event) (or_params : list string)
  : t * list event :=
  let '(self, out) := st in
  if negb (_check_param self or_params)
  then
    let self' := set_errors self (format error_message (join ", " or_params)) in
    (self', out ++ [Printed (errors self')])
  else (self, out).

Definition check_params (self : t) : option (list string) * t * list event :=
  if negb (seq_truthy (or_params self)) then (None, self, [])
  else
    let '(self', out) :=
      fold_left check_step (default [] (or_params self)) (self, []) in
    (Some (errors self'), self', out).

End OrParamsCheck.

(** ** The rule registry *)

(** What the decorator uses of a subclass of [BaseCheck]: its constructor
    and its [check_params], which returns the optional tuple of errors,
    leaves the instance updated and may print. *)
Record checker_cls := CheckerCls {
  instance : Type;
  new : pyval → parameters → instance;
  run_check_params : instance → option (list string) * instance * list event;
}.

Definition RequiredParamsCheck_cls : checker_cls :=
  {| instance := RequiredParamsCheck.t;
     new := RequiredParamsCheck.__init__;
     run_check_params := λ self,
       let '(e, self') := RequiredParamsCheck.check_params self in (e, self', []) |}.

Definition OrParamsCheck_cls : checker_cls :=
  {| instance := OrParamsCheck.t;
     new := OrParamsCheck.__init__;
     run_check_params := OrParamsCheck.check_params |}.

(** [BaseCheck.__subclasses__()]: the direct subclasses in the order of
    their definition in [required_params.py]. *)
Definition BaseCheck__subclasses__ : list checker_cls :=
  [RequiredParamsCheck_cls; OrParamsCheck_cls].

(** Constructing [checker_cls] on [params] and the keyword bag and calling
    its [check_params()], with what it prints;
    the instance is dropped afterwards. *)
Definition instantiate_and_check (params : pyval) (parameters : parameters)
    (cls : checker_cls) : option (list string) * list event :=
  let '(e, _, out) := run_check_params cls (new cls params parameters) in
  (e, out).

(** ** The decorator [check_params] *)

(** One turn of the loop of [set_errors]: [errors.extend(e)] when [e] is
    truthy. *)
Definition set_errors_step (params : pyval) (parameters : parameters)
    (st : list string * list event) (cls : checker_cls)
  : list string * list event :=
  let '(errors, out) := st in
  let '(e, printed) := instantiate_and_check params parameters cls in
  (if seq_truthy e then errors ++ default [] e else errors, out ++ printed).

(** [set_errors(params)] over a given registry. *)
Definition set_errors_in (subclasses : list checker_cls)
    (parameters : parameters) (params : pyval) : list string * list event :=
  fold_left (set_errors_step params parameters) subclasses ([], []).

(** [set_errors(params)] of the source: the registry is
    [BaseCheck.__subclasses__()]. *)
Definition set_errors (parameters : parameters) (params : pyval)
  : list string * list event :=
  set_errors_in BaseCheck__subclasses__ parameters params.

(** ** Exceptions, results and the world *)

Inductive exn :=
| MissingParams (errors : list string)
| TypeError
| AttributeError
| RequestException.

Inductive result (A : Type) :=
| Ok (a : A)
| Raise (e : exn).
Arguments Ok {A} a.
Arguments Raise {A} e.

(** The world is the trace of what was printed and requested so far, oldest
    first.  A computation reads the trace, extends it, and returns a value
    or raises. *)
Definition M (A : Type) : Type := list event → result A * list event.

#[global] Instance M_ret : MRet M := λ A a w, (Ok a, w).

#[global] Instance M_bind : MBind M := λ A B f m w,
  match m w with
  | (Ok a, w') => f a w'
  | (Raise e, w') => (Raise e, w')
  end.

Definition raise {A} (e : exn) : M A := λ w, (Raise e, w).

Definition emit (out : list event) : M () := λ w, (Ok (), w ++ out).

(** [kwargs.get(key)]: [None] when the keyword was not passed. *)
Definition kwargs_get (kwargs : gmap string pyval) (key : string) : pyval :=
  default PyNone (kwargs !! key).

(** [bool(errors)] of a list *)
Definition list_truthy {A} (l : list A) : bool :=
  match l with
  | [] => false
  | _ :: _ => true
  end.

Section decorator.
(** The closure of [check_params]: the keyword bag, then the decorated
    function.  Positional arguments are of any type; the wrapper passes
    them on untouched. *)
Context {Arg R : Type}.
Variable parameters : parameters.
Variable func : list Arg → gmap string pyval → M R.

(** The call [set_errors(params)] as a step of a computation: what the
    rules print goes to the trace and the aggregate is returned. *)
Definition run_set_errors (params : pyval) : M (list string) :=
  _ ← emit (set_errors parameters params).2;
  mret (set_errors parameters params).1.

Definition wrapper (args : list Arg) (kwargs : gmap string pyval) : M R :=
  errors ← run_set_errors (kwargs_get kwargs "params");
  if list_truthy errors then raise (MissingParams errors)
  else func args kwargs.

End decorator.

(** The decorator applied to its keyword bag and then to [func]. *)
Definition check_params {Arg R} (parameters : parameters)
    (func : list Arg → gmap string pyval → M R)
  : list Arg → gmap string pyval → M R :=
  wrapper parameters func.

(** ** vk/methods.py and vk/vk.py: sending a request *)

(** A decoded JSON document. *)
#[local] Set Warnings "-register-all".
Inductive json :=
| JNull
| JBool (b : bool)
| JNum (z : Z)
| JStr (s : string)
| JArr (items : list json)
| JObj (fields : list (string * json)).

(** [requests.Response] as far as it is read: [json] is [None] when
    [response.json()] raises [JSONDecodeError]. *)
Module Response.
Record t := Build {
  json : option json;
  status_code : Z;
}.
End Response.

Module VkApiResponse.
Record t := Build {
  body : json;
  status_code : Z;
}.
End VkApiResponse.

(** [s.endswith(suffix)] *)
Definition endswith (s suffix : string) : bool :=
  let n := String.length s in
  let m := String.length suffix in
  (m <=? n)%nat && String.eqb (substring (n - m) m s) suffix.

(** [s.startswith(prefix)] *)
Definition startswith (s prefix : string) : bool := String.prefix prefix s.

Module VkApiMethods.

Definition base_url : string := "https://api.vk.com/method/".
Definition version : string := "5.131".

Definition CREATE_COMMENT : string := "wall.createComment".
Definition GET_COMMENT : string := "wall.getComment".
Definition GET_COMMENTS : string := "wall.getComments".
Definition GET_LIKES : string := "wall.getLikes".
Definition GET_REPOSTS : string := "wall.getReposts".
Definition GET_CONVERSATIONS : string := "messages.getConversations".
Definition GET_HISTORY : string := "messages.getHistory".
Definition GET_POSTS : string := "wall.get".
Definition GET_USERS_INFO : string := "users.get".
Definition PUBLISH_POST : string := "wall.post".
Definition DELETE_POST : string := "wall.delete".
Definition SEND_MESSAGE : string := "messages.send".
Definition GET_CALLBACK_CONFIRMATION_CODE : string :=
  "groups.getCallbackConfirmationCode".
Definition ADD_CALLBACK_SERVER : string := "groups.addCallbackServer".
Definition GET_CALLBACK_SERVERS : string := "groups.getCallbackServers".
Definition UPLOAD_PHOTO : string := "photos.getWallUploadServer".
Definition SAVE_PHOTO : string := "photos.saveWallPhoto".
Definition SAVE_VIDEO : string := "video.save".

Definition _VkApiMethods__http_methods : gmap string string :=
  list_to_map [
    (CREATE_COMMENT, "POST");
    (GET_COMMENT, "GET");
    (GET_COMMENTS, "GET");
    (GET_LIKES, "GET");
    (GET_REPOSTS, "GET");
    (GET_CONVERSATIONS, "GET");
    (GET_HISTORY, "GET");
    (GET_POSTS, "GET");
    (GET_USERS_INFO, "GET");
    (PUBLISH_POST, "POST");
    (DELETE_POST, "POST");
    (SEND_MESSAGE, "POST");
    (GET_CALLBACK_CONFIRMATION_CODE, "GET");
    (ADD_CALLBACK_SERVER, "POST");
    (GET_CALLBACK_SERVERS, "GET");
    (UPLOAD_PHOTO, "POST");
    (SAVE_PHOTO, "POST");
    (SAVE_VIDEO, "POST")
  ].

Definition get_http_method (rpc_method : string) : option string :=
  _VkApiMethods__http_methods !! rpc_method.

Definition has_method (method : string) : bool :=
  bool_decide (is_Some (_VkApiMethods__http_methods !! method)).

Section get_url.
(** [urllib.parse.urljoin] and [PreparedRequest.prepare_url] followed
    by reading [req.url] are library code: they are taken as given. *)
Variable urljoin : string → string → string.
Variable prepare_url : string → dict → string.

Definition get_url (method : string) (params : dict) : string :=
  let url := urljoin base_url method in
  let url := if negb (endswith url "/") then (url ++ "/")%string else url in
  prepare_url url params.
End get_url.

End VkApiMethods.

Module VkApi.

Record t := Build {
  token : string;
  owner_id : string;
  group_token : option string;
}.

(** A positional argument of a method call: the receiver or a value. *)
Inductive argval :=
| Self (api : t)
| Arg (v : pyval).

Definition str_or_none (o : option string) : scalar :=
  match o with
  | Some s => SStr s
  | None => SNone
  end.

Section transport.
Variable urljoin : string → string → string.
Variable prepare_url : string → dict → string.
(** [requests.request(method=..., url=...)]: the remote end, which may
    answer differently depending on what happened before, or fail. *)
Variable requests_request :
  list event → option string → string → result Response.t.

Definition _get_url (self : t) (api_method : string) (params : pyval)
  : M string :=
  match params with
  | PyNone => raise AttributeError
  | PyDict params =>
      let p := params in
      let token :=
        if startswith api_method "messages" || startswith api_method "groups"
        then group_token self
        else Some (token self) in
      let literal : dict :=
        params ∪ ({[ "owner_id" := SStr (owner_id self);
                     "access_token" := str_or_none token;
                     "v" := SStr VkApiMethods.version ]} : dict) in
      let p := literal ∪ p in
      mret (VkApiMethods.get_url urljoin prepare_url api_method p)
  end.

Definition request (http_method : option string) (url : string)
  : M Response.t :=
  λ w, (requests_request w http_method url,
        w ++ [Requested http_method url]).

Definition _send_api_request (self : t) (api_method : string)
    (params : pyval) : M VkApiResponse.t :=
  if negb (VkApiMethods.has_method api_method) then
    mret (VkApiResponse.Build
            (JObj [("response", JObj [("error", JStr "Метод не существует")])])
            404)
  else
    url ← _get_url self api_method params;
    response ← request (VkApiMethods.get_http_method api_method) url;
    match Response.json response with
    | None =>
        mret (VkApiResponse.Build
                (JObj [("response",
                        JObj [("error", JStr "Сервер не вернул валидный json.")])])
                502)
    | Some response_body =>
        mret (VkApiResponse.Build response_body (Response.status_code response))
    end.

(** Binding [( *args, **kwargs)] to the signature [(self, params)]. *)
Definition bind_self_params (args : list argval)
    (kwargs : gmap string pyval) : M (t * pyval) :=
  match args, kwargs !! "params" with
  | [Self self; Arg params], None =>
      if bool_decide (kwargs = ∅) then mret (self, params) else raise TypeError
  | [Self self], Some params =>
      if bool_decide (dom kwargs = {["params"]}) then mret (self, params)
      else raise TypeError
  | _, _ => raise TypeError
  end.

(** The body of an operation that only delegates:
    [return self._send_api_request(METHOD, params=params)].  The decorated
    operations below are those whose body is exactly this; the others of
    the class differ only in what they add to [params] first. *)
Definition delegate (api_method : string) (args : list argval)
    (kwargs : gmap string pyval) : M VkApiResponse.t :=
  '(self, params) ← bind_self_params args kwargs;
  _send_api_request self api_method params.

Definition get_posts := delegate VkApiMethods.GET_POSTS.

Definition publish_post :=
  check_params (Parameters None (Some [["message"; "attachments"]]))
    (delegate VkApiMethods.PUBLISH_POST).

Definition delete_post :=
  check_params (Parameters (Some ["post_id"]) None)
    (delegate VkApiMethods.DELETE_POST).

Definition get_comment :=
  check_params (Parameters (Some ["post_id"]) None)
    (delegate VkApiMethods.GET_COMMENT).

Definition get_comments :=
  check_params (Parameters None (Some [["post_id"; "comment_id"]]))
    (delegate VkApiMethods.GET_COMMENTS).

Definition save_photo :=
  check_params (Parameters (Some ["group_id"; "server"; "photo"; "hash"]) None)
    (delegate VkApiMethods.SAVE_PHOTO).

End transport.

End VkApi.

(** * Vocabulary of the properties *)

(** ** The parameter set as a set of names *)

(** The names a parameter value supplies: none for [None]. *)
Definition keys (params : pyval) : gset string :=
  match params with
  | PyNone => ∅
  | PyDict d => dom d
  end.

Definition container_keys (c : container) : gset string :=
  match c with
  | EmptyTuple => ∅
  | Dict d => dom d
  end.

(** The verdict of a rule: an absent result reads as no error. *)
Definition verdict (e : option (list string)) : list string := default [] e.

(** A name is missing from a container when [in] answers false. *)
Definition missing_from (c : container) (name : string) : Prop :=
  name ∉ container_keys c.

#[global] Instance missing_from_dec c name : Decision (missing_from c name).
Proof. unfold missing_from. apply _. Defined.

(** A group is unmet when none of its members is in the container. *)
Definition unmet_in (c : container) (group : list string) : Prop :=
  Forall (missing_from c) group.

#[global] Instance unmet_in_dec c group : Decision (unmet_in c group).
Proof. unfold unmet_in. apply _. Defined.

(** The error of the required-names rule for one name, and of the
    alternative-groups rule for one group. *)
Definition required_message (name : string) : string :=
  format RequiredParamsCheck.error_message name.

Definition or_message (group : list string) : string :=
  format OrParamsCheck.error_message (join ", " group).

(** What the loop prints while it appends [msgs] to an accumulator that
    holds [acc]: after each append, the whole tuple. *)
Fixpoint printed_while_appending (acc msgs : list string) : list event :=
  match msgs with
  | [] => []
  | msg :: msgs =>
      Printed (acc ++ [msg]) :: printed_while_appending (acc ++ [msg]) msgs
  end.

(** A group has no member present when it shares no name with the
    parameter set. *)
Definition no_member_present (params : pyval) (group : list string) : Prop :=
  list_to_set group ∩ keys params = (∅ : gset string).

#[global] Instance no_member_present_dec params group :
  Decision (no_member_present params group).
Proof. unfold no_member_present. apply _. Defined.

(** One message per name of [names] that is absent, in the order of [names]. *)
Definition required_errors (params : pyval) (names : list string) : list string :=
  required_message <$> filter (λ name, name ∉ keys params) names.

(** One message per group of [groups] with no member present, in the order
    of [groups]. *)
Definition or_errors (params : pyval) (groups : list (list string)) : list string :=
  or_message <$> filter (no_member_present params) groups.

(** The errors and the output one registered class contributes. *)
Definition contribution (params : pyval) (cfg : parameters) (cls : checker_cls)
  : list string :=
  verdict (instantiate_and_check params cfg cls).1.

Definition output (params : pyval) (cfg : parameters) (cls : checker_cls)
  : list event :=
  (instantiate_and_check params cfg cls).2.

(** A decorated function with a visible side effect: it records a request
    and returns the number of events it found in the world. *)
Definition counting_body (_ : list ()) (_ : gmap string pyval) : M nat :=
  λ w, (Ok (length w), w ++ [Requested None "called"]).

(** A client and a remote end to run the operations on: joining and
    preparing a URL keep the text, and the remote end answers every
    request with a body that is not JSON. *)
Definition demo_urljoin (base method : string) : string := (base ++ method)%string.
Definition demo_prepare_url (url : string) (_ : dict) : string := url.
Definition demo_not_json (_ : list event) (_ : option string) (_ : string)
  : result Response.t :=
  Ok (Response.Build None 200).
Definition demo_api : VkApi.t := VkApi.Build "token" "-1" None.

Definition unknown_method_response : VkApiResponse.t :=
  VkApiResponse.Build
    (JObj [("response", JObj [("error", JStr "Метод не существует")])]) 404.

Definition not_json_response : VkApiResponse.t :=
  VkApiResponse.Build
    (JObj [("response", JObj [("error", JStr "Сервер не вернул валидный json.")])])
    502.

(** ** The other delegating operations of [VkApi] *)

(** The operations of [vk/vk.py] whose body is the delegation alone and
    that are not defined above, each with the decorator of the source. *)
Module VkApiOperations.

Section transport.
Variable urljoin : string → string → string.
Variable prepare_url : string → dict → string.
Variable requests_request :
  list event → option string → string → result Response.t.

Definition create_comment :=
  check_params (Parameters (Some ["post_id"]) None)
    (VkApi.delegate urljoin prepare_url requests_request
       VkApiMethods.CREATE_COMMENT).

Definition get_conversations :=
  VkApi.delegate urljoin prepare_url requests_request
    VkApiMethods.GET_CONVERSATIONS.

Definition get_history :=
  check_params (Parameters None (Some [["user_id"; "peer_id"]]))
    (VkApi.delegate urljoin prepare_url requests_request
       VkApiMethods.GET_HISTORY).

Definition get_users_info :=
  check_params (Parameters (Some ["users_id"]) None)
    (VkApi.delegate urljoin prepare_url requests_request
       VkApiMethods.GET_USERS_INFO).

Definition upload_photo :=
  check_params (Parameters (Some ["group_id"]) None)
    (VkApi.delegate urljoin prepare_url requests_request
       VkApiMethods.UPLOAD_PHOTO).

Definition save_video :=
  check_params (Parameters (Some ["group_id"]) None)
    (VkApi.delegate urljoin prepare_url requests_request
       VkApiMethods.SAVE_VIDEO).

End transport.

End VkApiOperations.

(** ** Assignments to the attributes of a [BaseCheck] *)

(** An assignment to one of the two properties that have a setter. *)
Inductive assignment :=
| AssignErrors (val : string)
| AssignStatusCode (val : Z).

Definition assign (self : BaseCheck.t) (a : assignment) : BaseCheck.t :=
  match a with
  | AssignErrors val => BaseCheck.set_errors self val
  | AssignStatusCode val => BaseCheck.set_error_status_code self val
  end.

Definition assigned_error (a : assignment) : option string :=
  match a with
  | AssignErrors val => Some val
  | AssignStatusCode _ => None
  end.

Definition assigned_status_code (a : assignment) : option Z :=
  match a with
  | AssignErrors _ => None
  | AssignStatusCode val => Some val
  end.

(** ** The parameters of a request *)

(** The entries [_get_url] supplies by itself: the owner, the token (the
    group token for the methods of [messages] and [groups]) and the
    version of the API. *)
Definition request_defaults (self : VkApi.t) (api_method : string) : dict :=
  {[ "owner_id" := SStr (VkApi.owner_id self);
     "access_token" :=
       (if startswith api_method "messages" || startswith api_method "groups"
        then VkApi.str_or_none (VkApi.group_token self)
        else SStr (VkApi.token self));
     "v" := SStr VkApiMethods.version ]}.

(** The URL joiner and preparer that hand the URL back as it is. *)
Definition url_as_prepared (url : string) (_ : dict) : string := url.

(** A remote end that answers every request with a JSON body and the
    status 500, and one that is unreachable. *)
Definition demo_json_500 (_ : list event) (_ : option string) (_ : string)
  : result Response.t :=
  Ok (Response.Build (Some (JObj [("error", JStr "internal")])) 500).

Definition demo_unreachable (_ : list event) (_ : option string) (_ : string)
  : result Response.t :=
  Raise RequestException.

(** ** The outcome of a decorated operation called with [params=d] *)

(** The request goes out when every name of [names] is a key of [d];
    otherwise [MissingParams] is raised with the message of each absent
    name and the world is left as it was. *)
Definition admit_if_all (names : list string)
    (send : pyval → M VkApiResponse.t) (d : dict) : M VkApiResponse.t :=
  λ w,
    if decide (Forall (λ name, name ∈ dom d) names) then send (PyDict d) w
    else (Raise (MissingParams (required_errors (PyDict d) names)), w).

(** The request goes out when some name of [group] is a key of [d];
    otherwise [MissingParams] is raised with the message of the group,
    after the one line the rule prints. *)
Definition admit_if_any (group : list string)
    (send : pyval → M VkApiResponse.t) (d : dict) : M VkApiResponse.t :=
  λ w,
    if decide (Exists (λ name, name ∈ dom d) group) then send (PyDict d) w
    else (Raise (MissingParams [or_message group]),
          w ++ [Printed [or_message group]]).

(** * Properties *)

(** ** The parameter set as a set of names *)

Lemma contains_container_keys c name :
  contains c name = bool_decide (name ∈ container_keys c).
Proof.
  destruct c as [|d]; simpl.
  - symmetry. apply bool_decide_eq_false. set_solver.
  - apply bool_decide_ext. by rewrite elem_of_dom.
Qed.

Lemma container_keys_or_empty_tuple params :
  container_keys (or_empty_tuple params) = keys params.
Proof.
  destruct params as [|d]; simpl; [done|].
  case_bool_decide as Hd; simpl; [|done].
  by rewrite Hd, dom_empty_L.
Qed.

Lemma contains_or_empty_tuple params name :
  contains (or_empty_tuple params) name = bool_decide (name ∈ keys params).
Proof. by rewrite contains_container_keys, container_keys_or_empty_tuple. Qed.

Lemma verdict_seq_truthy (e : option (list string)) :
  (if seq_truthy e then verdict e else []) = verdict e.
Proof. by destruct e as [[|]|]. Qed.

(** ** The loops of the two rules *)

Section required_loop.
Import RequiredParamsCheck.

Lemma required_check_param self name :
  _check_param self name
  = bool_decide (name ∈ container_keys (BaseCheck.params (base self))).
Proof.
  unfold _check_param. rewrite contains_container_keys.
  by destruct (bool_decide _).
Qed.

Lemma required_check_step_params self name :
  BaseCheck.params (base (check_step self name)) = BaseCheck.params (base self)
  ∧ required_params (check_step self name) = required_params self.
Proof. unfold check_step. by destruct (negb _). Qed.

Lemma required_check_step_errors self name :
  errors (check_step self name)
  = errors self ++
    (if decide (missing_from (BaseCheck.params (base self)) name)
     then [required_message name] else []).
Proof.
  unfold check_step. rewrite required_check_param.
  unfold missing_from. case_bool_decide; simpl.
  - rewrite decide_False by tauto. by rewrite app_nil_r.
  - by rewrite decide_True.
Qed.

(** The loop appends, in order, one message per name that is missing,
    whatever the accumulator held before. *)
Lemma required_loop names : ∀ self,
  let self' := fold_left check_step names self in
  errors self'
  = errors self ++
    (required_message <$> filter (missing_from (BaseCheck.params (base self))) names)
  ∧ BaseCheck.params (base self') = BaseCheck.params (base self)
  ∧ required_params self' = required_params self.
Proof.
  induction names as [|name names IH]; intros self; simpl.
  - by rewrite app_nil_r.
  - destruct (IH (check_step self name)) as (Herr & Hparams & Hreq).
    destruct (required_check_step_params self name) as [Hp Hr].
    rewrite Herr, Hparams, Hreq, Hp, Hr, required_check_step_errors.
    split; [|done].
    rewrite filter_cons. destruct (decide _); simpl.
    + by rewrite <- app_assoc.
    + by rewrite app_nil_r.
Qed.

(** [check_params] on an instance in any state. *)
Lemma required_check_params_spec self :
  let msgs :=
    required_message <$>
    filter (missing_from (BaseCheck.params (base self)))
      (default [] (required_params self)) in
  let '(e, self') := check_params self in
  (if seq_truthy (required_params self)
   then e = Some (errors self ++ msgs)
   else e = None ∧ msgs = [])
  ∧ errors self' = errors self ++ msgs.
Proof.
  unfold check_params.
  destruct (required_params self) as [[|name names]|] eqn:Hcfg;
    cbn [seq_truthy negb]; cbv zeta; try (simpl; by rewrite app_nil_r).
  cbn [from_option id].
  destruct (required_loop (name :: names) self) as (Herr & _ & _).
  by rewrite Herr.
Qed.

End required_loop.

Section or_loop.
Import OrParamsCheck.

Lemma or_check_param self group :
  _check_param self group
  = negb (bool_decide (unmet_in (BaseCheck.params (base self)) group)).
Proof.
  unfold _check_param, unmet_in.
  induction group as [|name group IH]; cbn [existsb].
  - by rewrite bool_decide_eq_true_2.
  - rewrite IH, contains_container_keys. unfold missing_from.
    destruct (decide (name ∈ container_keys (BaseCheck.params (base self))))
      as [Hin|Hout].
    + rewrite (bool_decide_eq_true_2 _ Hin). simpl. symmetry.
      apply negb_true_iff, bool_decide_eq_false.
      intros Hall. by inversion_clear Hall.
    + rewrite (bool_decide_eq_false_2 _ Hout). simpl. f_equal.
      apply bool_decide_ext. split.
      * intros Hall. by constructor.
      * intros Hall. by inversion_clear Hall.
Qed.

Lemma or_check_step_params st group :
  BaseCheck.params (base (check_step st group).1) = BaseCheck.params (base st.1)
  ∧ or_params (check_step st group).1 = or_params st.1.
Proof. destruct st as [self out]. unfold check_step. by destruct (negb _). Qed.

Lemma or_check_step_errors self out group :
  let msgs :=
    if decide (unmet_in (BaseCheck.params (base self)) group)
    then [or_message group] else [] in
  errors (check_step (self, out) group).1 = errors self ++ msgs
  ∧ (check_step (self, out) group).2
    = out ++ printed_while_appending (errors self) msgs.
Proof.
  unfold check_step. rewrite or_check_param, negb_involutive.
  case_bool_decide; simpl.
  - by rewrite decide_True.
  - rewrite decide_False by done. simpl. by rewrite !app_nil_r.
Qed.

(** The loop appends, in order, one message per unmet group, and prints
    the accumulator after each append. *)
Lemma or_loop groups : ∀ self out,
  let st' := fold_left check_step groups (self, out) in
  let msgs :=
    or_message <$> filter (unmet_in (BaseCheck.params (base self))) groups in
  errors st'.1 = errors self ++ msgs
  ∧ st'.2 = out ++ printed_while_appending (errors self) msgs
  ∧ BaseCheck.params (base st'.1) = BaseCheck.params (base self)
  ∧ or_params st'.1 = or_params self.
Proof.
  induction groups as [|group groups IH]; intros self out; cbv zeta;
    cbn [fold_left].
  - simpl. by rewrite !app_nil_r.
  - destruct (check_step (self, out) group) as [self1 out1] eqn:Hstep.
    destruct (IH self1 out1) as (Herr & Hout & Hparams & Hor).
    destruct (or_check_step_params (self, out) group) as [Hp Hr].
    destruct (or_check_step_errors self out group) as [He Ho].
    rewrite Hstep in Hp, Hr, He, Ho. simpl in Hp, Hr, He, Ho.
    rewrite Herr, Hout, Hparams, Hor, Hp, Hr, He, Ho.
    rewrite filter_cons. destruct (decide _); simpl.
    + by rewrite <- !app_assoc.
    + by rewrite !app_nil_r.
Qed.

(** [check_params] on an instance in any state. *)
Lemma or_check_params_spec self :
  let msgs :=
    or_message <$>
    filter (unmet_in (BaseCheck.params (base self))) (default [] (or_params self)) in
  let '(e, self', out) := check_params self in
  (if seq_truthy (or_params self)
   then e = Some (errors self ++ msgs)
   else e = None ∧ msgs = [])
  ∧ errors self' = errors self ++ msgs
  ∧ out = printed_while_appending (errors self) msgs.
Proof.
  unfold check_params.
  destruct (or_params self) as [[|group groups]|] eqn:Hcfg; cbn [seq_truthy negb];
    cbv zeta; try (simpl; by rewrite app_nil_r).
  cbn [from_option id].
  destruct (or_loop (group :: groups) self []) as (Herr & Hout & _ & _).
  destruct (fold_left check_step (group :: groups) (self, [])) as [self' out].
  simpl in Herr, Hout. by rewrite Herr, Hout.
Qed.

End or_loop.

(** ** What each rule has to report *)

Lemma unmet_in_no_member_present params group :
  unmet_in (or_empty_tuple params) group ↔ no_member_present params group.
Proof.
  unfold unmet_in, no_member_present, missing_from.
  rewrite container_keys_or_empty_tuple, Forall_forall.
  split.
  - intros Hall. apply set_eq. intros name.
    rewrite elem_of_intersection, elem_of_list_to_set.
    split; [|set_solver]. intros [Hin Hkey]. by destruct (Hall name Hin).
  - intros Hempty name Hin Hkey.
    assert (name ∈ (list_to_set group ∩ keys params : gset string)) as Hboth
      by (apply elem_of_intersection; split; [by apply elem_of_list_to_set|done]).
    rewrite Hempty in Hboth. set_solver.
Qed.

Lemma no_member_present_empty group : no_member_present (PyDict ∅) group.
Proof.
  unfold no_member_present. cbn [keys].
  rewrite dom_empty_L. apply (right_absorb_L _ _).
Qed.

Lemma required_filter params names :
  required_message <$> filter (missing_from (or_empty_tuple params)) names
  = required_errors params names.
Proof.
  unfold required_errors. f_equal. apply list_filter_iff. intros name.
  unfold missing_from. by rewrite container_keys_or_empty_tuple.
Qed.

Lemma or_filter params groups :
  or_message <$> filter (unmet_in (or_empty_tuple params)) groups
  = or_errors params groups.
Proof.
  unfold or_errors. f_equal. apply list_filter_iff. intros group.
  apply unmet_in_no_member_present.
Qed.

(** ** The two rules on a fresh instance *)

Lemma required_fresh_check params cfg :
  let result := RequiredParamsCheck.check_params
                  (RequiredParamsCheck.__init__ params cfg) in
  let reported := required_errors params (default [] (get_required_params cfg)) in
  result.1 = (if seq_truthy (get_required_params cfg) then Some reported else None)
  ∧ RequiredParamsCheck.errors result.2 = reported
  ∧ verdict result.1 = reported.
Proof.
  intros result reported.
  pose proof (required_check_params_spec (RequiredParamsCheck.__init__ params cfg)) as H.
  cbv zeta in H. fold result in H. destruct result as [e self'].
  cbn [RequiredParamsCheck.__init__ RequiredParamsCheck.required_params
       RequiredParamsCheck.base BaseCheck.__init__ BaseCheck.params
       RequiredParamsCheck.errors BaseCheck.errors BaseCheck._BaseCheck__errors
       app] in H.
  rewrite required_filter in H. fold reported in H. destruct H as [He Herr].
  cbn [fst snd]. split; [|split; [done|]].
  - destruct (seq_truthy _); [done|by destruct He].
  - destruct (seq_truthy _); [by rewrite He|].
    destruct He as [-> Hnil]. symmetry. exact Hnil.
Qed.

Lemma or_fresh_check params cfg :
  let result := OrParamsCheck.check_params (OrParamsCheck.__init__ params cfg) in
  let reported := or_errors params (default [] (get_or_params cfg)) in
  result.1.1 = (if seq_truthy (get_or_params cfg) then Some reported else None)
  ∧ OrParamsCheck.errors result.1.2 = reported
  ∧ verdict result.1.1 = reported
  ∧ result.2 = printed_while_appending [] reported.
Proof.
  intros result reported.
  pose proof (or_check_params_spec (OrParamsCheck.__init__ params cfg)) as H.
  cbv zeta in H. fold result in H. destruct result as [[e self'] out].
  cbn [OrParamsCheck.__init__ OrParamsCheck.or_params
       OrParamsCheck.base BaseCheck.__init__ BaseCheck.params
       OrParamsCheck.errors BaseCheck.errors BaseCheck._BaseCheck__errors
       app] in H.
  rewrite or_filter in H. fold reported in H. destruct H as (He & Herr & Hout).
  cbn [fst snd]. split; [|split; [done|split; [|done]]].
  - destruct (seq_truthy _); [done|by destruct He].
  - destruct (seq_truthy _); [by rewrite He|].
    destruct He as [-> Hnil]. symmetry. exact Hnil.
Qed.

Lemma required_rule_verdict params cfg :
  instantiate_and_check params cfg RequiredParamsCheck_cls
  = (if seq_truthy (get_required_params cfg)
     then Some (required_errors params (default [] (get_required_params cfg)))
     else None,
     []).
Proof.
  unfold instantiate_and_check. cbn [run_check_params new RequiredParamsCheck_cls].
  destruct (required_fresh_check params cfg) as (He & _).
  destruct (RequiredParamsCheck.check_params _) as [e self'].
  simpl in He. by rewrite He.
Qed.

Lemma or_rule_verdict params cfg :
  instantiate_and_check params cfg OrParamsCheck_cls
  = (if seq_truthy (get_or_params cfg)
     then Some (or_errors params (default [] (get_or_params cfg)))
     else None,
     printed_while_appending []
       (or_errors params (default [] (get_or_params cfg)))).
Proof.
  unfold instantiate_and_check. cbn [run_check_params new OrParamsCheck_cls].
  destruct (or_fresh_check params cfg) as (He & _ & _ & Hout).
  destruct (OrParamsCheck.check_params _) as [[e self'] out].
  simpl in He, Hout. by rewrite He, Hout.
Qed.

(** ** The loop over the registry *)

Lemma set_errors_step_spec params cfg errors out cls :
  set_errors_step params cfg (errors, out) cls
  = (errors ++ contribution params cfg cls, out ++ output params cfg cls).
Proof.
  unfold set_errors_step, contribution, output.
  destruct (instantiate_and_check params cfg cls) as [e printed]. simpl.
  f_equal. rewrite <- (verdict_seq_truthy e).
  destruct (seq_truthy e); [done|by rewrite app_nil_r].
Qed.

Lemma set_errors_loop params cfg subclasses : ∀ errors out,
  fold_left (set_errors_step params cfg) subclasses (errors, out)
  = (errors ++ mjoin (contribution params cfg <$> subclasses),
     out ++ mjoin (output params cfg <$> subclasses)).
Proof.
  induction subclasses as [|cls subclasses IH]; intros errors out;
    cbn [fold_left fmap list_fmap mjoin list_join].
  - by rewrite !app_nil_r.
  - by rewrite set_errors_step_spec, IH, <- !app_assoc.
Qed.

Lemma set_errors_spec cfg params :
  set_errors cfg params
  = (required_errors params (default [] (get_required_params cfg))
     ++ or_errors params (default [] (get_or_params cfg)),
     printed_while_appending []
       (or_errors params (default [] (get_or_params cfg)))).
Proof.
  unfold set_errors, set_errors_in, BaseCheck__subclasses__.
  rewrite set_errors_loop.
  cbn [fmap list_fmap mjoin list_join app].
  unfold contribution, output.
  rewrite required_rule_verdict, or_rule_verdict. cbn [fst snd].
  rewrite !app_nil_r. f_equal.
  f_equal.
  - destruct (get_required_params cfg) as [[|]|]; done.
  - destruct (get_or_params cfg) as [[|]|]; done.
Qed.

Lemma filter_nil_Forall {A} (P : A → Prop) `{!∀ x, Decision (P x)} (l : list A) :
  filter P l = [] ↔ Forall (λ x, ¬ P x) l.
Proof.
  induction l as [|x l IH]; [done|].
  rewrite filter_cons, Forall_cons. destruct (decide (P x)); [|tauto].
  split; [done|]. by intros [? _].
Qed.

Lemma string_app_empty_r (s : string) : (s ++ "")%string = s.
Proof.
  induction s as [|c s IH]; [done|].
  change (String c (s ++ "")%string = String c s). by rewrite IH.
Qed.

(** The message templates are closed: formatting prepends a fixed text. *)
Lemma required_message_text name :
  required_message name
  = ("Отсутствует обязательный параметр " ++ name)%string.
Proof.
  unfold required_message, RequiredParamsCheck.error_message. simpl.
  by rewrite string_app_empty_r.
Qed.

Lemma or_message_text group :
  or_message group
  = ("Отсутвтвует как минимум один из обязательных параметров "
     ++ join ", " group)%string.
Proof.
  unfold or_message, OrParamsCheck.error_message. simpl.
  by rewrite string_app_empty_r.
Qed.

(** ** The required-names rule *)

(** C2: for every parameter set and every sequence [R] of required names,
    the check of [RequiredParamsCheck] on a fresh instance reports exactly
    one error for each (occurrence of a) name of [R] that is absent from
    the parameter set, in the order of [R]; these are the errors the
    instance has accumulated; and it reports none exactly when every name
    of [R] is present, the empty [R] included. *)
Theorem required_rule_reports_absent_names
    (params : pyval) (R : list string) (groups : option (list (list string))) :
  let self := RequiredParamsCheck.__init__ params (Parameters (Some R) groups) in
  let result := RequiredParamsCheck.check_params self in
  let absent := filter (λ name, name ∉ keys params) R in
  verdict result.1 = required_message <$> absent
  ∧ RequiredParamsCheck.errors result.2 = required_message <$> absent
  ∧ length (verdict result.1) = length absent
  ∧ (verdict result.1 = [] ↔ Forall (λ name, name ∈ keys params) R)
  ∧ verdict (RequiredParamsCheck.check_params
               (RequiredParamsCheck.__init__ params (Parameters (Some []) groups))).1
    = [].
Proof.
  intros self result absent.
  destruct (required_fresh_check params (Parameters (Some R) groups))
    as (_ & Herr & Hv).
  fold self result in Herr, Hv. destruct result as [e self'].
  cbn [fst snd get_required_params from_option id] in *.
  unfold required_errors in Herr, Hv. fold absent in Herr, Hv.
  split; [done|]. split; [done|]. split; [by rewrite Hv, length_fmap|].
  assert (verdict e = [] ↔ Forall (λ name, name ∈ keys params) R) as Hiff.
  { rewrite Hv. unfold absent. split.
    - intros Hnil%fmap_nil_inv%filter_nil_Forall.
      eapply Forall_impl; [exact Hnil|]. intros name Hname. simpl in Hname.
      by destruct (decide (name ∈ keys params)).
    - intros Hall. replace (filter _ R) with (@nil string); [done|].
      symmetry. apply filter_nil_Forall.
      eapply Forall_impl; [exact Hall|]. intros name Hname. simpl. tauto. }
  split; [done|].
  by destruct (required_fresh_check params (Parameters (Some []) groups))
    as (_ & _ & ->).
Qed.

(** ** The alternative-groups rule *)

(** C3: for every parameter set and every sequence [G] of groups, the check
    of [OrParamsCheck] on a fresh instance reports exactly one error for
    each group of [G] that shares no name with the parameter set, in the
    order of [G], and nothing for a group with a member present; on the
    empty parameter set and two groups, [set_errors] returns exactly two
    errors, the first group's and then the second's. *)
Theorem or_rule_reports_unmet_groups
    (params : pyval) (G : list (list string)) (names : option (list string)) :
  let self := OrParamsCheck.__init__ params (Parameters names (Some G)) in
  let result := (OrParamsCheck.check_params self).1 in
  let unmet := filter (no_member_present params) G in
  verdict result.1 = or_message <$> unmet
  ∧ OrParamsCheck.errors result.2 = or_message <$> unmet
  ∧ length (verdict result.1) = length unmet
  ∧ (∀ g1 g2 : list string,
       (set_errors (Parameters None (Some [g1; g2])) (PyDict ∅)).1
       = [or_message g1; or_message g2]).
Proof.
  intros self result unmet.
  destruct (or_fresh_check params (Parameters names (Some G)))
    as (_ & Herr & Hv & _).
  fold self in Herr, Hv. subst result.
  destruct (OrParamsCheck.check_params self) as [[e self'] out].
  cbn [fst snd get_or_params from_option id] in *.
  unfold or_errors in Herr, Hv. fold unmet in Herr, Hv.
  split; [done|]. split; [done|]. split; [by rewrite Hv, length_fmap|].
  intros g1 g2. rewrite set_errors_spec. cbn [fst get_required_params
    get_or_params from_option id]. unfold required_errors, or_errors.
  rewrite filter_nil. cbn [fmap list_fmap app].
  rewrite !filter_cons, filter_nil.
  by rewrite !decide_True by apply no_member_present_empty.
Qed.

(** ** The aggregate *)

(** C4: [set_errors] runs every registered rule, whatever the earlier ones
    reported, and returns the concatenation of their errors in registry
    order: over any registry, the aggregate is the join of the registered
    classes' contributions (and the output the join of their outputs);
    over the registry of the source, it is the required-names errors in
    configuration order followed by the alternative-groups errors in
    configuration order. *)
Theorem set_errors_concatenates_every_rule :
  (∀ (subclasses : list checker_cls) (cfg : parameters) (params : pyval),
     set_errors_in subclasses cfg params
     = (mjoin (contribution params cfg <$> subclasses),
        mjoin (output params cfg <$> subclasses)))
  ∧ (∀ (cfg : parameters) (params : pyval),
       (set_errors cfg params).1
       = required_errors params (default [] (get_required_params cfg))
         ++ or_errors params (default [] (get_or_params cfg))).
Proof.
  split.
  - intros subclasses cfg params. unfold set_errors_in.
    by rewrite set_errors_loop.
  - intros cfg params. by rewrite set_errors_spec.
Qed.

(** ** The text of the required-names error *)

(** C5, as stated: on the empty parameter set with [post_id] required the
    aggregate is not the English text. *)
Lemma scenario_B_is_not_the_english_text :
  (set_errors (Parameters (Some ["post_id"]) None) (PyDict ∅)).1
  ≠ ["missing required parameter post_id"].
Proof. vm_compute. discriminate. Qed.

(** C5, amended: on the empty parameter set with [post_id] required,
    [set_errors] returns exactly the one-element aggregate holding the
    template of the source filled with [post_id]; in general the rule
    reports, for each required name that is not present, the text
    "Отсутствует обязательный параметр " followed by the name. *)
Theorem scenario_B_reports_the_source_text :
  (set_errors (Parameters (Some ["post_id"]) None) (PyDict ∅)).1
  = ["Отсутствует обязательный параметр post_id"]
  ∧ (∀ (params : pyval) (names : list string) (groups : option (list (list string))),
       verdict (RequiredParamsCheck.check_params
                  (RequiredParamsCheck.__init__ params
                     (Parameters (Some names) groups))).1
       = (λ name, "Отсутствует обязательный параметр " ++ name)%string
           <$> filter (λ name, name ∉ keys params) names).
Proof.
  split; [by vm_compute|].
  intros params names groups.
  destruct (required_fresh_check params (Parameters (Some names) groups))
    as (_ & _ & ->).
  cbn [get_required_params from_option id]. unfold required_errors.
  apply list_fmap_ext. intros _ name _. apply required_message_text.
Qed.

(** ** Rules without configuration *)

(** C6: a rule whose configuration is absent or empty returns [None],
    prints nothing and contributes nothing to the aggregate, which is then
    what the other rule reports; with both absent or empty the aggregate is
    empty; and on [{comment_id: 5}] with the group [post_id, comment_id]
    and no required name, [set_errors] returns the empty aggregate. *)
Theorem unconfigured_rule_is_a_noop
    (params : pyval) (names : option (list string))
    (groups : option (list (list string))) :
  (names = None ∨ names = Some [] →
     instantiate_and_check params (Parameters names groups) RequiredParamsCheck_cls
     = (None, [])
     ∧ (set_errors (Parameters names groups) params).1
       = or_errors params (default [] groups))
  ∧ (groups = None ∨ groups = Some [] →
       instantiate_and_check params (Parameters names groups) OrParamsCheck_cls
       = (None, [])
       ∧ set_errors (Parameters names groups) params
         = (required_errors params (default [] names), []))
  ∧ (names = None ∨ names = Some [] → groups = None ∨ groups = Some [] →
       set_errors (Parameters names groups) params = ([], []))
  ∧ set_errors (Parameters (Some []) (Some [["post_id"; "comment_id"]]))
      (PyDict {[ "comment_id" := SInt 5 ]})
    = ([], []).
Proof.
  split; [|split; [|split]].
  - intros Hnames. rewrite required_rule_verdict, set_errors_spec.
    cbn [get_required_params get_or_params fst].
    by destruct Hnames as [-> | ->].
  - intros Hgroups. rewrite or_rule_verdict, set_errors_spec.
    cbn [get_required_params get_or_params].
    destruct Hgroups as [-> | ->]; cbn [from_option id seq_truthy];
      unfold or_errors; rewrite filter_nil; simpl; by rewrite app_nil_r.
  - intros Hnames Hgroups. rewrite set_errors_spec.
    cbn [get_required_params get_or_params].
    by destruct Hnames as [-> | ->], Hgroups as [-> | ->].
  - by vm_compute.
Qed.

Lemma unconfigured_rule_is_a_noop_witness :
  set_errors (Parameters None (Some [])) (PyDict {[ "comment_id" := SInt 5 ]})
  = ([], []).
Proof.
  destruct (unconfigured_rule_is_a_noop
              (PyDict {[ "comment_id" := SInt 5 ]}) None (Some []))
    as (_ & _ & Hboth & _).
  apply Hboth; [left | right]; reflexivity.
Defined.

(** ** Dependence on the names only *)

Lemma required_errors_keys p1 p2 names :
  keys p1 = keys p2 → required_errors p1 names = required_errors p2 names.
Proof.
  intros Hkeys. unfold required_errors. f_equal.
  apply list_filter_iff. intros name. by rewrite Hkeys.
Qed.

Lemma or_errors_keys p1 p2 groups :
  keys p1 = keys p2 → or_errors p1 groups = or_errors p2 groups.
Proof.
  intros Hkeys. unfold or_errors. f_equal.
  apply list_filter_iff. intros group. unfold no_member_present.
  by rewrite Hkeys.
Qed.

(** C8: [set_errors] is a function of the configuration and of the set of
    names of the parameter set: two parameter values that supply the same
    names give the same aggregate (and the same output), whatever the
    values stored under the names; and a second run on the same input,
    after the first has left its output in the world, returns the same
    aggregate as the first. *)
Theorem set_errors_depends_on_names_only
    (cfg : parameters) (p1 p2 : pyval) (w : list event) :
  keys p1 = keys p2 →
  set_errors cfg p1 = set_errors cfg p2
  ∧ (first ← run_set_errors cfg p1;
     second ← run_set_errors cfg p2;
     mret (first, second)) w
    = (Ok ((set_errors cfg p1).1, (set_errors cfg p1).1),
       w ++ (set_errors cfg p1).2 ++ (set_errors cfg p1).2).
Proof.
  intros Hkeys.
  assert (set_errors cfg p1 = set_errors cfg p2) as Heq.
  { rewrite !set_errors_spec.
    by rewrite (required_errors_keys p1 p2), (or_errors_keys p1 p2). }
  split; [done|].
  unfold run_set_errors, emit, mbind, M_bind, mret, M_ret.
  by rewrite <- Heq, <- app_assoc.
Qed.

Lemma set_errors_depends_on_names_only_witness :
  set_errors (Parameters (Some ["post_id"; "text"]) (Some [["a"; "post_id"]; ["b"]]))
    (PyDict {[ "post_id" := SInt 5 ]})
  = set_errors (Parameters (Some ["post_id"; "text"]) (Some [["a"; "post_id"]; ["b"]]))
      (PyDict {[ "post_id" := SStr "five" ]}).
Proof.
  apply (set_errors_depends_on_names_only
           (Parameters (Some ["post_id"; "text"]) (Some [["a"; "post_id"]; ["b"]]))
           (PyDict {[ "post_id" := SInt 5 ]})
           (PyDict {[ "post_id" := SStr "five" ]}) []).
  cbn [keys]. by rewrite !dom_singleton_L.
Defined.

(** ** The error accumulator *)

Lemma fold_set_errors vals : ∀ self,
  BaseCheck.errors (fold_left BaseCheck.set_errors vals self)
  = BaseCheck.errors self ++ vals.
Proof.
  induction vals as [|val vals IH]; intros self; cbn [fold_left].
  - by rewrite app_nil_r.
  - rewrite IH. unfold BaseCheck.errors, BaseCheck.set_errors. simpl.
    by rewrite <- app_assoc.
Qed.

(** C10, as stated: with no configuration [check_params] returns [None],
    which is not the accumulated (empty) tuple of the instance. *)
Lemma check_params_without_configuration_returns_None :
  (RequiredParamsCheck.check_params
     (RequiredParamsCheck.__init__ (PyDict ∅) (Parameters None None))).1
  ≠ Some (RequiredParamsCheck.errors
            (RequiredParamsCheck.check_params
               (RequiredParamsCheck.__init__ (PyDict ∅) (Parameters None None))).2).
Proof. vm_compute. discriminate. Qed.

(** C10, amended: the error accumulator of a rule instance is append-only.
    Assigning to [errors] appends the value to the private list; reading
    [errors] returns everything appended so far, in append order; a fresh
    instance has an empty accumulator and status code 400; on an instance
    in any state, [check_params] returns the full accumulated tuple of the
    instance when its configuration is non-empty and [None], leaving the
    instance as it was, when the configuration is absent or empty; in both
    cases what was accumulated before is a prefix of what is accumulated
    after. *)
Theorem error_accumulator_is_append_only :
  (∀ (self : BaseCheck.t) (val : string),
     BaseCheck.errors (BaseCheck.set_errors self val) = BaseCheck.errors self ++ [val]
     ∧ BaseCheck.error_status_code (BaseCheck.set_errors self val)
       = BaseCheck.error_status_code self)
  ∧ (∀ (params : pyval) (cfg : parameters) (vals : list string),
       BaseCheck.errors
         (fold_left BaseCheck.set_errors vals (BaseCheck.__init__ params cfg))
       = vals)
  ∧ (∀ (params : pyval) (cfg : parameters),
       BaseCheck.errors (BaseCheck.__init__ params cfg) = []
       ∧ BaseCheck.error_status_code (BaseCheck.__init__ params cfg) = 400%Z
       ∧ RequiredParamsCheck.base (RequiredParamsCheck.__init__ params cfg)
         = BaseCheck.__init__ params cfg
       ∧ OrParamsCheck.base (OrParamsCheck.__init__ params cfg)
         = BaseCheck.__init__ params cfg)
  ∧ (∀ self : RequiredParamsCheck.t,
       let result := RequiredParamsCheck.check_params self in
       result.1 = (if seq_truthy (RequiredParamsCheck.required_params self)
                   then Some (RequiredParamsCheck.errors result.2)
                   else None)
       ∧ (if seq_truthy (RequiredParamsCheck.required_params self)
          then True else result.2 = self)
       ∧ RequiredParamsCheck.errors self
         `prefix_of` RequiredParamsCheck.errors result.2)
  ∧ (∀ self : OrParamsCheck.t,
       let result := (OrParamsCheck.check_params self).1 in
       result.1 = (if seq_truthy (OrParamsCheck.or_params self)
                   then Some (OrParamsCheck.errors result.2)
                   else None)
       ∧ (if seq_truthy (OrParamsCheck.or_params self)
          then True else result.2 = self)
       ∧ OrParamsCheck.errors self `prefix_of` OrParamsCheck.errors result.2).
Proof.
  split; [|split; [|split; [|split]]].
  - done.
  - intros params cfg vals. by rewrite fold_set_errors.
  - done.
  - intros self result.
    pose proof (required_check_params_spec self) as Hspec. cbv zeta in Hspec.
    assert (if seq_truthy (RequiredParamsCheck.required_params self)
            then True else result.2 = self) as Hsame.
    { subst result. unfold RequiredParamsCheck.check_params.
      by destruct (seq_truthy _). }
    fold result in Hspec. destruct result as [e self'].
    destruct Hspec as [He Herr]. cbn [fst snd] in *.
    split; [|split; [done|]].
    + rewrite Herr. destruct (seq_truthy _); [done|by destruct He].
    + rewrite Herr. by apply prefix_app_r.
  - intros self result.
    pose proof (or_check_params_spec self) as Hspec. cbv zeta in Hspec.
    assert (if seq_truthy (OrParamsCheck.or_params self)
            then True else result.2 = self) as Hsame.
    { subst result. unfold OrParamsCheck.check_params.
      by destruct (seq_truthy _). }
    subst result. destruct (OrParamsCheck.check_params self) as [[e self'] out].
    destruct Hspec as (He & Herr & _). cbn [fst snd] in *.
    split; [|split; [done|]].
    + rewrite Herr. destruct (seq_truthy _); [done|by destruct He].
    + rewrite Herr. by apply prefix_app_r.
Qed.

(** ** The wrapper *)

Lemma list_truthy_nil {A} (l : list A) : list_truthy l = false ↔ l = [].
Proof. by destruct l. Qed.

Lemma wrapper_unfold {Arg R} cfg (func : list Arg → gmap string pyval → M R)
    args kwargs w :
  wrapper cfg func args kwargs w
  = let validated := set_errors cfg (kwargs_get kwargs "params") in
    if list_truthy validated.1
    then (Raise (MissingParams validated.1), w ++ validated.2)
    else func args kwargs (w ++ validated.2).
Proof.
  unfold wrapper, run_set_errors, emit, mbind, M_bind, mret, M_ret, raise.
  cbv zeta. by destruct (list_truthy _).
Qed.

(** Nothing is printed when the aggregate is empty. *)
Lemma set_errors_nil_output cfg params :
  (set_errors cfg params).1 = [] → (set_errors cfg params).2 = [].
Proof.
  rewrite set_errors_spec. cbn [fst snd].
  intros [_ ->]%app_eq_nil. done.
Qed.

Lemma wrapper_rejects {Arg R} cfg (func : list Arg → gmap string pyval → M R)
    args kwargs w :
  (set_errors cfg (kwargs_get kwargs "params")).1 ≠ [] →
  wrapper cfg func args kwargs w
  = (Raise (MissingParams (set_errors cfg (kwargs_get kwargs "params")).1),
     w ++ (set_errors cfg (kwargs_get kwargs "params")).2).
Proof.
  intros Hne. rewrite wrapper_unfold. cbv zeta.
  destruct (list_truthy _) eqn:Htruthy; [done|].
  by apply list_truthy_nil in Htruthy.
Qed.

Lemma wrapper_delegates {Arg R} cfg (func : list Arg → gmap string pyval → M R)
    args kwargs w :
  (set_errors cfg (kwargs_get kwargs "params")).1 = [] →
  wrapper cfg func args kwargs w = func args kwargs w.
Proof.
  intros Hnil. rewrite wrapper_unfold. cbv zeta.
  rewrite (set_errors_nil_output _ _ Hnil), Hnil. simpl. by rewrite app_nil_r.
Qed.

(** C1: for every decorated function, configuration and invocation: when
    [set_errors] on the invocation's parameter set returns a non-empty
    aggregate, the wrapper raises [MissingParams] carrying the whole
    aggregate and the outcome (result and world) does not involve the
    decorated function at all, so its body is not run; when the aggregate
    is empty, the wrapper is the decorated function applied to the original
    arguments in the unchanged world, and its result is returned as it
    is. *)
Theorem wrapper_rejects_or_delegates {Arg R : Type} (cfg : parameters)
    (func : list Arg → gmap string pyval → M R)
    (args : list Arg) (kwargs : gmap string pyval) (w : list event) :
  let validated := set_errors cfg (kwargs_get kwargs "params") in
  (validated.1 ≠ [] →
     wrapper cfg func args kwargs w
     = (Raise (MissingParams validated.1), w ++ validated.2))
  ∧ (validated.1 = [] →
       wrapper cfg func args kwargs w = func args kwargs w).
Proof.
  intros validated. split.
  - apply wrapper_rejects.
  - apply wrapper_delegates.
Qed.

Lemma wrapper_rejects_or_delegates_witness :
  wrapper (Parameters (Some ["post_id"]) None) counting_body [] ∅ []
  = (Raise (MissingParams ["Отсутствует обязательный параметр post_id"]), [])
  ∧ wrapper (Parameters (Some ["post_id"]) None) counting_body []
      {[ "params" := PyDict {[ "post_id" := SInt 7 ]} ]} []
    = (Ok 0, [Requested None "called"]).
Proof.
  split.
  - destruct (wrapper_rejects_or_delegates
                (Parameters (Some ["post_id"]) None) counting_body [] ∅ [])
      as [Hrejects _].
    rewrite Hrejects; [reflexivity|]. vm_compute. discriminate.
  - destruct (wrapper_rejects_or_delegates
                (Parameters (Some ["post_id"]) None) counting_body []
                {[ "params" := PyDict {[ "post_id" := SInt 7 ]} ]} [])
      as [_ Hdelegates].
    rewrite Hdelegates; [reflexivity|]. vm_compute. reflexivity.
Defined.

(** ** Parameters passed positionally *)

Lemma set_errors_None_empty cfg :
  set_errors cfg PyNone = set_errors cfg (PyDict ∅).
Proof.
  rewrite !set_errors_spec.
  rewrite (required_errors_keys PyNone (PyDict ∅)),
    (or_errors_keys PyNone (PyDict ∅)); [done| |]; cbn [keys];
    by rewrite dom_empty_L.
Qed.

Lemma required_errors_empty names :
  required_errors (PyDict ∅) names = required_message <$> names.
Proof.
  unfold required_errors. f_equal.
  induction names as [|name names IH]; [done|].
  rewrite filter_cons, decide_True; [by rewrite IH|].
  cbn [keys]. rewrite dom_empty_L. apply not_elem_of_empty.
Qed.

(** C9: the wrapper reads the parameter set from the keyword [params] only.
    For every invocation without that keyword, whatever is passed
    positionally, validation runs as on the empty parameter set; so with a
    non-empty sequence of required names the wrapper raises
    [MissingParams], with one error per required name first, and the
    decorated function is not run. *)
Theorem positional_parameters_are_not_validated {Arg R : Type}
    (cfg : parameters) (func : list Arg → gmap string pyval → M R)
    (args : list Arg) (kwargs : gmap string pyval) (w : list event)
    (names : list string) :
  kwargs !! "params" = None →
  get_required_params cfg = Some names →
  names ≠ [] →
  run_set_errors cfg (kwargs_get kwargs "params") w
  = run_set_errors cfg (PyDict ∅) w
  ∧ wrapper cfg func args kwargs w
    = (Raise (MissingParams (set_errors cfg (PyDict ∅)).1),
       w ++ (set_errors cfg (PyDict ∅)).2)
  ∧ (set_errors cfg (PyDict ∅)).1
    = (required_message <$> names)
      ++ or_errors (PyDict ∅) (default [] (get_or_params cfg)).
Proof.
  intros Hkw Hcfg Hnames.
  assert (kwargs_get kwargs "params" = PyNone) as Hget
    by (unfold kwargs_get; by rewrite Hkw).
  assert ((set_errors cfg (PyDict ∅)).1
          = (required_message <$> names)
            ++ or_errors (PyDict ∅) (default [] (get_or_params cfg))) as Herrors.
  { rewrite set_errors_spec, Hcfg. cbn [fst from_option id].
    by rewrite required_errors_empty. }
  split; [|split; [|done]].
  - unfold run_set_errors. by rewrite Hget, set_errors_None_empty.
  - rewrite wrapper_rejects; rewrite Hget, set_errors_None_empty; [done|].
    rewrite Herrors. by destruct names.
Qed.

Lemma positional_parameters_are_not_validated_witness :
  VkApi.delete_post demo_urljoin demo_prepare_url demo_not_json
    [VkApi.Self demo_api; VkApi.Arg (PyDict {[ "post_id" := SInt 1 ]})] ∅ []
  = (Raise (MissingParams ["Отсутствует обязательный параметр post_id"]), []).
Proof.
  destruct (positional_parameters_are_not_validated
              (Parameters (Some ["post_id"]) None)
              (VkApi.delegate demo_urljoin demo_prepare_url demo_not_json
                 VkApiMethods.DELETE_POST)
              [VkApi.Self demo_api; VkApi.Arg (PyDict {[ "post_id" := SInt 1 ]})]
              ∅ [] ["post_id"])
    as (_ & Hraise & _).
  - apply lookup_empty.
  - reflexivity.
  - discriminate.
  - unfold VkApi.delete_post, check_params. rewrite Hraise. reflexivity.
Defined.

(** ** Failures of the request and failures of validation *)

(** C7: [_send_api_request] on a method that is not in the catalog returns
    the fixed response with status 404, without raising and leaving the
    world as it was (no request is sent); when the method is known and the
    answer of the remote end cannot be decoded as JSON it returns the fixed
    response with status 502, after the one request; and a failed
    validation is raised by the wrapper as [MissingParams], so the result of
    the call is no response at all. *)
Theorem request_failures_are_responses_validation_failures_are_raised
    (urljoin : string → string → string) (prepare_url : string → dict → string)
    (requests_request : list event → option string → string → result Response.t)
    (self : VkApi.t) (api_method : string) (params : pyval) (w : list event) :
  (VkApiMethods.has_method api_method = false →
     VkApi._send_api_request urljoin prepare_url requests_request
       self api_method params w
     = (Ok unknown_method_response, w))
  ∧ (∀ (url : string) (response : Response.t),
       VkApiMethods.has_method api_method = true →
       VkApi._get_url urljoin prepare_url self api_method params w = (Ok url, w) →
       requests_request w (VkApiMethods.get_http_method api_method) url
       = Ok response →
       Response.json response = None →
       VkApi._send_api_request urljoin prepare_url requests_request
         self api_method params w
       = (Ok not_json_response,
          w ++ [Requested (VkApiMethods.get_http_method api_method) url]))
  ∧ (∀ (Arg : Type) (cfg : parameters)
       (func : list Arg → gmap string pyval → M VkApiResponse.t)
       (args : list Arg) (kwargs : gmap string pyval),
       (set_errors cfg (kwargs_get kwargs "params")).1 ≠ [] →
       (wrapper cfg func args kwargs w).1
       = Raise (MissingParams (set_errors cfg (kwargs_get kwargs "params")).1)
       ∧ ∀ response : VkApiResponse.t,
           (wrapper cfg func args kwargs w).1 ≠ Ok response).
Proof.
  split; [|split].
  - intros Hunknown. unfold VkApi._send_api_request. by rewrite Hunknown.
  - intros url response Hknown Hurl Hrequest Hjson.
    unfold VkApi._send_api_request. rewrite Hknown. cbn [negb].
    unfold mbind, M_bind. rewrite Hurl.
    unfold VkApi.request. rewrite Hrequest, Hjson. done.
  - intros Arg cfg func args kwargs Hne.
    rewrite (wrapper_rejects cfg func args kwargs w Hne). cbn [fst].
    split; [done|]. intros response. discriminate.
Qed.

Lemma request_failures_are_responses_validation_failures_are_raised_witness :
  VkApi._send_api_request demo_urljoin demo_prepare_url demo_not_json
    demo_api "wall.unknown" (PyDict ∅) []
  = (Ok unknown_method_response, [])
  ∧ VkApi._send_api_request demo_urljoin demo_prepare_url demo_not_json
      demo_api "wall.delete" (PyDict {[ "post_id" := SInt 1 ]}) []
    = (Ok not_json_response,
       [Requested (Some "POST") "https://api.vk.com/method/wall.delete/"])
  ∧ (VkApi.delete_post demo_urljoin demo_prepare_url demo_not_json
       [VkApi.Self demo_api] {[ "params" := PyDict ∅ ]} []).1
    = Raise (MissingParams ["Отсутствует обязательный параметр post_id"]).
Proof.
  split; [|split].
  - apply (request_failures_are_responses_validation_failures_are_raised
             demo_urljoin demo_prepare_url demo_not_json
             demo_api "wall.unknown" (PyDict ∅) []).
    vm_compute. reflexivity.
  - destruct (request_failures_are_responses_validation_failures_are_raised
                demo_urljoin demo_prepare_url demo_not_json
                demo_api "wall.delete" (PyDict {[ "post_id" := SInt 1 ]}) [])
      as (_ & Hnot_json & _).
    apply (Hnot_json "https://api.vk.com/method/wall.delete/"
             (Response.Build None 200)); vm_compute; reflexivity.
  - destruct (request_failures_are_responses_validation_failures_are_raised
                demo_urljoin demo_prepare_url demo_not_json
                demo_api "wall.delete" (PyDict ∅) [])
      as (_ & _ & Hraised).
    destruct (Hraised VkApi.argval (Parameters (Some ["post_id"]) None)
                (VkApi.delegate demo_urljoin demo_prepare_url demo_not_json
                   VkApiMethods.DELETE_POST)
                [VkApi.Self demo_api] {[ "params" := PyDict ∅ ]})
      as [Hraise _]; [vm_compute; discriminate|].
    unfold VkApi.delete_post, check_params. rewrite Hraise. reflexivity.
Defined.

(** ** The scenarios of the source's call sites *)

Example format_required :
  format RequiredParamsCheck.error_message "post_id"
  = "Отсутствует обязательный параметр post_id".
Proof. reflexivity. Qed.

(** [publish_post] with a message: nothing to report. *)
Example scenario_A :
  set_errors (Parameters None (Some [["message"; "attachments"]]))
    (PyDict {[ "message" := SStr "hi" ]})
  = ([], []).
Proof. by vm_compute. Qed.

(** No parameter and two groups: two errors, and the accumulator is printed
    after each. *)
Example scenario_D :
  set_errors (Parameters None (Some [["peer_id"; "user_id"]; ["message"; "attachment"]]))
    (PyDict ∅)
  = ([or_message ["peer_id"; "user_id"]; or_message ["message"; "attachment"]],
     [Printed [or_message ["peer_id"; "user_id"]];
      Printed [or_message ["peer_id"; "user_id"];
               or_message ["message"; "attachment"]]]).
Proof. by vm_compute. Qed.

(** A rejected [delete_post] sends no request. *)
Example scenario_E :
  VkApi.delete_post demo_urljoin demo_prepare_url demo_not_json
    [VkApi.Self demo_api] {[ "params" := PyDict {[ "text" := SStr "x" ]} ]} []
  = (Raise (MissingParams [required_message "post_id"]), []).
Proof. by vm_compute. Qed.

(** * Further properties of the code *)

(** ** When the aggregate is empty *)

Lemma no_member_present_Forall params group :
  no_member_present params group ↔ Forall (λ name, name ∉ keys params) group.
Proof.
  rewrite <- unmet_in_no_member_present. unfold unmet_in, missing_from.
  by rewrite container_keys_or_empty_tuple.
Qed.

Lemma some_member_present params group :
  ¬ no_member_present params group ↔ Exists (λ name, name ∈ keys params) group.
Proof.
  rewrite no_member_present_Forall, Forall_forall, Exists_exists. split.
  - intros Hnot. induction group as [|name group IH].
    + destruct Hnot. intros name Hin. by apply elem_of_nil in Hin.
    + destruct (decide (name ∈ keys params)) as [Hin|Hout].
      * exists name. split; [by left|done].
      * destruct IH as (name' & Hin' & Hkey').
        { intros Hall. apply Hnot. intros name' [->|Hin']%elem_of_cons; auto. }
        exists name'. split; [by right|done].
  - intros (name & Hin & Hkey) Hall. by apply (Hall name Hin).
Qed.

(** X1: [set_errors] returns the empty aggregate exactly when every
    required name is among the names of the parameter set and every group
    has at least one member among them. *)
Theorem aggregate_is_empty_iff_requirements_met
    (cfg : parameters) (params : pyval) :
  (set_errors cfg params).1 = []
  ↔ Forall (λ name, name ∈ keys params) (default [] (get_required_params cfg))
    ∧ Forall (λ group, Exists (λ name, name ∈ keys params) group)
        (default [] (get_or_params cfg)).
Proof.
  rewrite set_errors_spec. cbn [fst]. unfold required_errors, or_errors.
  split.
  - intros [Hreq%fmap_nil_inv%filter_nil_Forall
            Hor%fmap_nil_inv%filter_nil_Forall]%app_eq_nil.
    split.
    + eapply Forall_impl; [exact Hreq|]. intros name Hname. simpl in Hname.
      by destruct (decide (name ∈ keys params)).
    + eapply Forall_impl; [exact Hor|]. intros group Hgroup.
      by apply some_member_present.
  - intros [Hreq Hor].
    assert (filter (λ name, name ∉ keys params)
              (default [] (get_required_params cfg)) = []) as ->.
    { apply filter_nil_Forall. eapply Forall_impl; [exact Hreq|].
      intros name Hname. simpl. tauto. }
    assert (filter (no_member_present params)
              (default [] (get_or_params cfg)) = []) as ->.
    { apply filter_nil_Forall. eapply Forall_impl; [exact Hor|].
      intros group Hgroup. by apply some_member_present. }
    done.
Qed.

(** ** More parameters, fewer errors *)

Lemma filter_sublist_impl {A} (P Q : A → Prop)
    `{!∀ x, Decision (P x)} `{!∀ x, Decision (Q x)} (l : list A) :
  (∀ x, P x → Q x) → filter P l `sublist_of` filter Q l.
Proof.
  intros Himpl. induction l as [|x l IH]; [done|].
  rewrite !filter_cons.
  destruct (decide (P x)) as [HP|HP], (decide (Q x)) as [HQ|HQ].
  - by apply sublist_skip.
  - destruct HQ. by apply Himpl.
  - by apply sublist_cons.
  - done.
Qed.

Lemma fmap_sublist {A B} (f : A → B) (l1 l2 : list A) :
  l1 `sublist_of` l2 → f <$> l1 `sublist_of` f <$> l2.
Proof.
  induction 1 as [|x l1 l2 _ IH|x l1 l2 _ IH]; simpl.
  - constructor.
  - by apply sublist_skip.
  - by apply sublist_cons.
Qed.

(** X2: supplying more parameter names never adds an error: when the names
    of one parameter set include those of another, the aggregate for the
    larger set is a subsequence of the aggregate for the smaller one. *)
Theorem more_parameters_never_add_errors
    (cfg : parameters) (p1 p2 : pyval) :
  keys p1 ⊆ keys p2 →
  (set_errors cfg p2).1 `sublist_of` (set_errors cfg p1).1.
Proof.
  intros Hsub. rewrite !set_errors_spec. cbn [fst].
  apply sublist_app; apply fmap_sublist, filter_sublist_impl.
  - intros name Hname Hin. apply Hname. by apply Hsub.
  - intros group. rewrite !no_member_present_Forall.
    intros Hall. eapply Forall_impl; [exact Hall|].
    intros name Hname Hin. apply Hname. by apply Hsub.
Qed.

Lemma more_parameters_never_add_errors_witness :
  (set_errors (Parameters (Some ["post_id"; "text"]) (Some [["a"; "b"]]))
     (PyDict {[ "post_id" := SInt 1; "b" := SNone ]})).1
  `sublist_of`
  (set_errors (Parameters (Some ["post_id"; "text"]) (Some [["a"; "b"]]))
     (PyDict {[ "post_id" := SInt 1 ]})).1.
Proof.
  apply (more_parameters_never_add_errors
           (Parameters (Some ["post_id"; "text"]) (Some [["a"; "b"]]))
           (PyDict {[ "post_id" := SInt 1 ]})
           (PyDict {[ "post_id" := SInt 1; "b" := SNone ]})).
  cbn [keys]. rewrite dom_insert_L. apply union_subseteq_l.
Defined.

(** ** An instance that is checked twice *)

Lemma required_check_params_preserves self :
  BaseCheck.params (RequiredParamsCheck.base (RequiredParamsCheck.check_params self).2)
  = BaseCheck.params (RequiredParamsCheck.base self)
  ∧ RequiredParamsCheck.required_params (RequiredParamsCheck.check_params self).2
    = RequiredParamsCheck.required_params self.
Proof.
  unfold RequiredParamsCheck.check_params.
  destruct (negb _); [done|]. cbn [snd].
  by destruct (required_loop
                 (default [] (RequiredParamsCheck.required_params self)) self)
    as (_ & ? & ?).
Qed.

Lemma or_check_params_preserves self :
  BaseCheck.params (OrParamsCheck.base (OrParamsCheck.check_params self).1.2)
  = BaseCheck.params (OrParamsCheck.base self)
  ∧ OrParamsCheck.or_params (OrParamsCheck.check_params self).1.2
    = OrParamsCheck.or_params self.
Proof.
  unfold OrParamsCheck.check_params.
  destruct (negb _); [done|].
  destruct (or_loop (default [] (OrParamsCheck.or_params self)) self [])
    as (_ & _ & Hparams & Hcfg).
  by destruct (fold_left _ _ _).
Qed.

(** X3: the accumulator is never reset, so checking the same instance a
    second time reports every error twice: for both rules, on an instance
    that was fresh before the first check, the verdict of the second check
    is the verdict of the first followed by itself. *)
Theorem second_check_reports_every_error_twice
    (params : pyval) (cfg : parameters) :
  (let first := RequiredParamsCheck.check_params
                  (RequiredParamsCheck.__init__ params cfg) in
   let second := RequiredParamsCheck.check_params first.2 in
   verdict second.1 = verdict first.1 ++ verdict first.1)
  ∧ (let first := OrParamsCheck.check_params
                    (OrParamsCheck.__init__ params cfg) in
     let second := OrParamsCheck.check_params first.1.2 in
     verdict second.1.1 = verdict first.1.1 ++ verdict first.1.1).
Proof.
  split.
  - intros first second.
    destruct (required_fresh_check params cfg) as (Hfirst & Herrors & Hverdict).
    fold first in Hfirst, Herrors, Hverdict.
    destruct (required_check_params_preserves
                (RequiredParamsCheck.__init__ params cfg)) as [Hparams Hcfg].
    fold first in Hparams, Hcfg.
    pose proof (required_check_params_spec first.2) as Hsecond.
    cbv zeta in Hsecond. fold second in Hsecond.
    destruct second as [e self'']. destruct Hsecond as [He _].
    rewrite Hparams, Hcfg, Herrors in He.
    cbn [RequiredParamsCheck.__init__ RequiredParamsCheck.required_params
         RequiredParamsCheck.base BaseCheck.__init__ BaseCheck.params] in He.
    rewrite required_filter in He. rewrite Hverdict. cbn [fst].
    destruct (seq_truthy _); [by rewrite He|].
    destruct He as [-> ->]. done.
  - intros first second.
    destruct (or_fresh_check params cfg) as (Hfirst & Herrors & Hverdict & _).
    fold first in Hfirst, Herrors, Hverdict.
    destruct (or_check_params_preserves (OrParamsCheck.__init__ params cfg))
      as [Hparams Hcfg].
    fold first in Hparams, Hcfg.
    pose proof (or_check_params_spec first.1.2) as Hsecond.
    cbv zeta in Hsecond. fold second in Hsecond.
    destruct second as [[e self''] out]. destruct Hsecond as [He _].
    rewrite Hparams, Hcfg, Herrors in He.
    cbn [OrParamsCheck.__init__ OrParamsCheck.or_params
         OrParamsCheck.base BaseCheck.__init__ BaseCheck.params] in He.
    rewrite or_filter in He. rewrite Hverdict. cbn [fst].
    destruct (seq_truthy _); [by rewrite He|].
    destruct He as [-> ->]. done.
Qed.

(** ** What the alternative-groups rule prints *)

Lemma printed_while_appending_take msgs : ∀ acc,
  printed_while_appending acc msgs
  = (λ k, Printed (acc ++ take k msgs)) <$> seq 1 (length msgs).
Proof.
  induction msgs as [|msg msgs IH]; intros acc; [done|].
  cbn [printed_while_appending length seq fmap list_fmap].
  f_equal.
  rewrite IH, <- (fmap_S_seq 1), <- list_fmap_compose.
  apply list_fmap_ext. intros _ k _. simpl. by rewrite <- app_assoc.
Qed.

(** X4: validation prints once per unmet group and never for a missing
    required name: the lines printed by [set_errors] show the errors of the
    alternative-groups rule as they accumulate, the first one, then the
    first two, and so on up to all of them. *)
Theorem printed_lines_show_the_group_errors_accumulating
    (cfg : parameters) (params : pyval) :
  let reported := or_errors params (default [] (get_or_params cfg)) in
  (set_errors cfg params).2
  = (λ k, Printed (take k reported)) <$> seq 1 (length reported).
Proof.
  intros reported. rewrite set_errors_spec. cbn [snd].
  by rewrite printed_while_appending_take.
Qed.

(** ** Assignments to the two properties *)

Lemma fold_assign (l : list assignment) : ∀ self,
  let self' := fold_left assign l self in
  BaseCheck.errors self' = BaseCheck.errors self ++ omap assigned_error l
  ∧ BaseCheck.error_status_code self'
    = default (BaseCheck.error_status_code self)
        (last (omap assigned_status_code l))
  ∧ BaseCheck.params self' = BaseCheck.params self.
Proof.
  induction l as [|a l IH] using rev_ind; intros self; cbv zeta.
  - simpl. by rewrite app_nil_r.
  - rewrite fold_left_app, !omap_app. cbn [fold_left].
    destruct (IH self) as (Herrors & Hstatus & Hparams).
    destruct a as [val|val]; cbn [assign omap list_omap assigned_error
      assigned_status_code option_bind mbind].
    + unfold BaseCheck.errors, BaseCheck.error_status_code,
        BaseCheck.set_errors in *. cbn.
      rewrite Herrors, Hstatus, Hparams, app_nil_r, app_assoc. done.
    + unfold BaseCheck.errors, BaseCheck.error_status_code,
        BaseCheck.set_error_status_code in *. cbn.
      rewrite Herrors, Hparams, app_nil_r, last_snoc. done.
Qed.

(** X5: after any sequence of assignments to [errors] and to
    [error_status_code] on a fresh instance, reading [errors] gives the
    values assigned to it, all of them and in order, reading
    [error_status_code] gives the last value assigned to it, or 400 when
    there was none, and the parameters are those given to the
    constructor: neither setter disturbs what the other one stores. *)
Theorem assignments_accumulate_errors_and_replace_status_code
    (params : pyval) (cfg : parameters) (l : list assignment) :
  let self := fold_left assign l (BaseCheck.__init__ params cfg) in
  BaseCheck.errors self = omap assigned_error l
  ∧ BaseCheck.error_status_code self
    = default 400%Z (last (omap assigned_status_code l))
  ∧ BaseCheck.params self = or_empty_tuple params.
Proof.
  intros self. destruct (fold_assign l (BaseCheck.__init__ params cfg))
    as (Herrors & Hstatus & Hparams).
  fold self in Herrors, Hstatus, Hparams. by rewrite Herrors, Hstatus, Hparams.
Qed.

(** ** The catalog of methods *)

Lemma catalog_verbs method verb :
  VkApiMethods.get_http_method method = Some verb →
  verb = "GET" ∨ verb = "POST".
Proof.
  assert (map_Forall (λ _ verb, verb = "GET" ∨ verb = "POST")
            VkApiMethods._VkApiMethods__http_methods) as Hall.
  { apply (bool_decide_unpack _). by vm_compute. }
  intros Hverb. exact (Hall method verb Hverb).
Qed.

(** X6: [has_method] and [get_http_method] agree on every name: a method
    is in the catalog exactly when it has a verb, that verb is GET or POST
    and nothing else, and a method outside the catalog has no verb. *)
Theorem catalog_methods_have_a_GET_or_POST_verb (method : string) :
  (VkApiMethods.has_method method = true
   ↔ ∃ verb, VkApiMethods.get_http_method method = Some verb
             ∧ (verb = "GET" ∨ verb = "POST"))
  ∧ (VkApiMethods.has_method method = false
     ↔ VkApiMethods.get_http_method method = None).
Proof.
  unfold VkApiMethods.has_method. split.
  - rewrite bool_decide_eq_true. split.
    + intros [verb Hverb]. exists verb. split; [done|].
      by apply (catalog_verbs method).
    + intros (verb & Hverb & _). by exists verb.
  - rewrite bool_decide_eq_false, <- eq_None_not_Some. done.
Qed.

(** ** The URL of a request *)

Lemma string_length_app_slash (s : string) :
  String.length (s ++ "/")%string = S (String.length s).
Proof.
  induction s as [|c s IH]; [done|].
  change (S (String.length (s ++ "/")%string) = S (S (String.length s))).
  by rewrite IH.
Qed.

Lemma substring_last_slash (s : string) :
  substring (String.length s) 1 (s ++ "/")%string = "/".
Proof.
  induction s as [|c s IH]; [done|].
  change (substring (String.length s) 1 (s ++ "/")%string = "/"). exact IH.
Qed.

Lemma endswith_app_slash (s : string) : endswith (s ++ "/")%string "/" = true.
Proof.
  unfold endswith. rewrite string_length_app_slash.
  change (String.length "/") with 1. cbn [Nat.leb Nat.sub andb].
  rewrite Nat.sub_0_r, substring_last_slash. done.
Qed.

(** X7: whatever [urljoin] and [prepare_url] do, [get_url] prepares a URL
    that ends with a slash, together with the parameters it was given: the
    joined URL itself when it already ends with one, and the joined URL
    with one slash added otherwise. *)
Theorem get_url_prepares_a_url_ending_with_a_slash
    (urljoin : string → string → string) (prepare_url : string → dict → string)
    (method : string) (params : dict) :
  let joined := urljoin VkApiMethods.base_url method in
  let url := VkApiMethods.get_url urljoin url_as_prepared method params in
  VkApiMethods.get_url urljoin prepare_url method params = prepare_url url params
  ∧ endswith url "/" = true
  ∧ (url = joined ∨ url = (joined ++ "/")%string)
  ∧ (if endswith joined "/" then url = joined else url ≠ joined).
Proof.
  intros joined url. subst url. unfold VkApiMethods.get_url, url_as_prepared.
  fold joined. destruct (endswith joined "/") eqn:Hends; cbn [negb].
  - split; [done|]. split; [done|]. split; [by left|done].
  - split; [done|]. split; [apply endswith_app_slash|]. split; [by right|].
    intros Heq. rewrite <- Heq in Hends at 1.
    by rewrite endswith_app_slash in Hends.
Qed.

(** ** The parameters of a request *)

Lemma get_url_of_dict urljoin prepare_url self api_method (d : dict) w :
  VkApi._get_url urljoin prepare_url self api_method (PyDict d) w
  = (Ok (VkApiMethods.get_url urljoin prepare_url api_method
           (d ∪ request_defaults self api_method)), w).
Proof.
  unfold VkApi._get_url, request_defaults, mret, M_ret. cbv zeta.
  do 3 f_equal.
  assert (∀ D : dict, (d ∪ D) ∪ d = d ∪ D) as ->.
  { intros D. apply map_eq. intros key. rewrite !lookup_union.
    by destruct (d !! key), (D !! key). }
  by destruct (startswith api_method "messages" || startswith api_method "groups").
Qed.

(** X8: [_get_url] sends the caller's entries unchanged and adds the
    owner, the token and the version only under the names the caller did
    not use: a caller's [owner_id], [access_token] or [v] replaces the
    client's.  The token it adds is the group token (possibly [None]) for
    the methods of [messages] and [groups], and the user token for every
    other method. *)
Theorem get_url_lets_the_caller_override_the_defaults
    (urljoin : string → string → string) (prepare_url : string → dict → string)
    (self : VkApi.t) (api_method : string) (d : dict) (w : list event) :
  let sent := d ∪ request_defaults self api_method in
  VkApi._get_url urljoin prepare_url self api_method (PyDict d) w
  = (Ok (VkApiMethods.get_url urljoin prepare_url api_method sent), w)
  ∧ (∀ key, sent !! key
            = match d !! key with
              | Some v => Some v
              | None => request_defaults self api_method !! key
              end)
  ∧ dom sent = dom d ∪ {[ "owner_id"; "access_token"; "v" ]}
  ∧ request_defaults self api_method !! "owner_id"
    = Some (SStr (VkApi.owner_id self))
  ∧ request_defaults self api_method !! "v" = Some (SStr "5.131")
  ∧ request_defaults self api_method !! "access_token"
    = Some (if startswith api_method "messages" || startswith api_method "groups"
            then match VkApi.group_token self with
                 | Some token => SStr token
                 | None => SNone
                 end
            else SStr (VkApi.token self)).
Proof.
  intros sent. split; [apply get_url_of_dict|]. split; [|split].
  - intros key. subst sent. rewrite lookup_union.
    by destruct (d !! key), (request_defaults self api_method !! key).
  - subst sent. unfold request_defaults.
    by rewrite dom_union_L, !dom_insert_L, dom_singleton_L.
  - unfold request_defaults. split; [done|]. split; [done|].
    rewrite lookup_insert_ne by done. rewrite lookup_insert_eq.
    by destruct (VkApi.group_token self).
Qed.

(** ** What [_send_api_request] does to the world *)

Lemma has_method_verb api_method :
  VkApiMethods.has_method api_method = true →
  ∃ verb, VkApiMethods.get_http_method api_method = Some verb
          ∧ (verb = "GET" ∨ verb = "POST").
Proof.
  unfold VkApiMethods.has_method. rewrite bool_decide_eq_true.
  intros [verb Hverb]. exists verb. split; [done|].
  by apply (catalog_verbs api_method).
Qed.

Lemma send_api_request_known urljoin prepare_url requests_request
    self api_method (d : dict) w :
  VkApiMethods.has_method api_method = true →
  let verb := VkApiMethods.get_http_method api_method in
  let url := VkApiMethods.get_url urljoin prepare_url api_method
               (d ∪ request_defaults self api_method) in
  VkApi._send_api_request urljoin prepare_url requests_request
    self api_method (PyDict d) w
  = (match requests_request w verb url with
     | Raise e => Raise e
     | Ok response =>
         match Response.json response with
         | None => Ok not_json_response
         | Some body =>
             Ok (VkApiResponse.Build body (Response.status_code response))
         end
     end,
     w ++ [Requested verb url]).
Proof.
  intros Hknown verb url. unfold VkApi._send_api_request.
  rewrite Hknown. cbn [negb]. unfold mbind, M_bind.
  rewrite get_url_of_dict. fold url verb. unfold VkApi.request.
  destruct (requests_request w verb url) as [response|e]; [|done].
  by destruct (Response.json response).
Qed.

(** X9: one call of [_send_api_request] sends at most one request, and
    only with a verb of the catalog: either the world is left as it was,
    which happens exactly for a method outside the catalog or for [None]
    in place of the parameters, or exactly one request is added, with GET
    or POST as its verb, whatever the remote end answers. *)
Theorem send_api_request_sends_at_most_one_request
    (urljoin : string → string → string) (prepare_url : string → dict → string)
    (requests_request : list event → option string → string → result Response.t)
    (self : VkApi.t) (api_method : string) (params : pyval) (w : list event) :
  let outcome := VkApi._send_api_request urljoin prepare_url requests_request
                   self api_method params w in
  (outcome.2 = w
   ∧ (VkApiMethods.has_method api_method = false ∨ params = PyNone))
  ∨ (∃ verb url,
       (verb = "GET" ∨ verb = "POST")
       ∧ VkApiMethods.get_http_method api_method = Some verb
       ∧ VkApiMethods.has_method api_method = true
       ∧ params ≠ PyNone
       ∧ outcome.2 = w ++ [Requested (Some verb) url]).
Proof.
  intros outcome. subst outcome.
  destruct (VkApiMethods.has_method api_method) eqn:Hknown.
  - destruct params as [|d].
    + left. unfold VkApi._send_api_request. rewrite Hknown. by split; [|right].
    + right. destruct (has_method_verb api_method Hknown) as (verb & Hverb & Hkind).
      exists verb. eexists. split; [done|]. split; [done|]. split; [done|].
      split; [done|].
      rewrite (send_api_request_known _ _ _ _ _ _ _ Hknown). cbn [snd].
      by rewrite Hverb.
  - left. unfold VkApi._send_api_request. rewrite Hknown. by split; [|left].
Qed.

(** X10: for a method of the catalog and a parameter container, the
    answer of the remote end is passed through: a JSON body comes back with
    the status code of the answer, whatever that code is, and an exception
    of [requests.request] reaches the caller as it is; in both cases the
    one request has been sent. *)
Theorem send_api_request_passes_the_answer_through
    (urljoin : string → string → string) (prepare_url : string → dict → string)
    (requests_request : list event → option string → string → result Response.t)
    (self : VkApi.t) (api_method : string) (d : dict) (w : list event) :
  VkApiMethods.has_method api_method = true →
  let verb := VkApiMethods.get_http_method api_method in
  let url := VkApiMethods.get_url urljoin prepare_url api_method
               (d ∪ request_defaults self api_method) in
  let outcome := VkApi._send_api_request urljoin prepare_url requests_request
                   self api_method (PyDict d) w in
  outcome.2 = w ++ [Requested verb url]
  ∧ (∀ response body,
       requests_request w verb url = Ok response →
       Response.json response = Some body →
       outcome.1 = Ok (VkApiResponse.Build body (Response.status_code response)))
  ∧ (∀ e, requests_request w verb url = Raise e → outcome.1 = Raise e).
Proof.
  intros Hknown verb url outcome. subst outcome.
  rewrite (send_api_request_known _ _ _ _ _ _ _ Hknown). fold verb url.
  cbn [fst snd]. split; [done|]. split.
  - intros response body -> ->. done.
  - intros e ->. done.
Qed.

Lemma send_api_request_passes_the_answer_through_witness :
  VkApi._send_api_request demo_urljoin demo_prepare_url demo_json_500
    demo_api "wall.get" (PyDict {[ "count" := SInt 2 ]}) []
  = (Ok (VkApiResponse.Build (JObj [("error", JStr "internal")]) 500),
     [Requested (Some "GET") "https://api.vk.com/method/wall.get/"])
  ∧ (VkApi._send_api_request demo_urljoin demo_prepare_url demo_unreachable
       demo_api "wall.get" (PyDict {[ "count" := SInt 2 ]}) []).1
    = Raise RequestException.
Proof.
  split.
  - destruct (send_api_request_passes_the_answer_through
                demo_urljoin demo_prepare_url demo_json_500
                demo_api "wall.get" {[ "count" := SInt 2 ]} [])
      as (Hworld & Hbody & _); [by vm_compute|].
    apply injective_projections.
    + apply (Hbody (Response.Build (Some (JObj [("error", JStr "internal")])) 500));
        reflexivity.
    + rewrite Hworld. by vm_compute.
  - destruct (send_api_request_passes_the_answer_through
                demo_urljoin demo_prepare_url demo_unreachable
                demo_api "wall.get" {[ "count" := SInt 2 ]} [])
      as (_ & _ & Hraise); [by vm_compute|].
    by apply Hraise.
Defined.

(** X11: for a method of the catalog, [None] in place of the parameter
    container makes [_send_api_request] raise [AttributeError] before any
    request is sent. *)
Theorem send_api_request_without_parameters_raises
    (urljoin : string → string → string) (prepare_url : string → dict → string)
    (requests_request : list event → option string → string → result Response.t)
    (self : VkApi.t) (api_method : string) (w : list event) :
  VkApiMethods.has_method api_method = true →
  VkApi._send_api_request urljoin prepare_url requests_request
    self api_method PyNone w
  = (Raise AttributeError, w).
Proof.
  intros Hknown. unfold VkApi._send_api_request. by rewrite Hknown.
Qed.

Lemma send_api_request_without_parameters_raises_witness :
  VkApi.get_posts demo_urljoin demo_prepare_url demo_json_500
    [VkApi.Self demo_api] {[ "params" := PyNone ]} []
  = (Raise AttributeError, []).
Proof.
  etransitivity;
    [|apply (send_api_request_without_parameters_raises
               demo_urljoin demo_prepare_url demo_json_500
               demo_api VkApiMethods.GET_POSTS []); by vm_compute].
  by vm_compute.
Defined.

(** ** The decorated operations, called with [params=...] *)

Section operations.
Variable urljoin : string → string → string.
Variable prepare_url : string → dict → string.
Variable requests_request :
  list event → option string → string → result Response.t.

Lemma delegate_by_keyword api_method (api : VkApi.t) (v : pyval) w :
  VkApi.delegate urljoin prepare_url requests_request api_method
    [VkApi.Self api] {[ "params" := v ]} w
  = VkApi._send_api_request urljoin prepare_url requests_request
      api api_method v w.
Proof.
  unfold VkApi.delegate, VkApi.bind_self_params.
  rewrite lookup_singleton_eq, dom_singleton_L.
  by rewrite bool_decide_eq_true_2.
Qed.

Lemma decorated_delegate_by_keyword cfg api_method (api : VkApi.t) (v : pyval) w :
  check_params cfg
    (VkApi.delegate urljoin prepare_url requests_request api_method)
    [VkApi.Self api] {[ "params" := v ]} w
  = if list_truthy (set_errors cfg v).1
    then (Raise (MissingParams (set_errors cfg v).1), w ++ (set_errors cfg v).2)
    else VkApi._send_api_request urljoin prepare_url requests_request
           api api_method v w.
Proof.
  unfold check_params. rewrite wrapper_unfold. cbv zeta.
  unfold kwargs_get. rewrite lookup_singleton_eq. cbn [from_option id].
  destruct (list_truthy _) eqn:Htruthy; [done|].
  apply list_truthy_nil in Htruthy.
  rewrite (set_errors_nil_output _ _ Htruthy), app_nil_r.
  apply delegate_by_keyword.
Qed.

Lemma required_names_by_keyword names api_method (api : VkApi.t) (d : dict) w :
  check_params (Parameters (Some names) None)
    (VkApi.delegate urljoin prepare_url requests_request api_method)
    [VkApi.Self api] {[ "params" := PyDict d ]} w
  = admit_if_all names
      (VkApi._send_api_request urljoin prepare_url requests_request
         api api_method) d w.
Proof.
  rewrite decorated_delegate_by_keyword, set_errors_spec.
  cbn [fst snd get_required_params get_or_params from_option id].
  unfold or_errors. rewrite filter_nil. cbn [fmap list_fmap printed_while_appending].
  rewrite !app_nil_r. unfold admit_if_all.
  destruct (decide (Forall (λ name, name ∈ dom d) names)) as [Hall|Hnot].
  - replace (required_errors (PyDict d) names) with (@nil string); [done|].
    symmetry. unfold required_errors.
    replace (filter _ names) with (@nil string); [done|].
    symmetry. apply filter_nil_Forall.
    eapply Forall_impl; [exact Hall|]. intros name Hname. cbn [keys]. tauto.
  - destruct (list_truthy _) eqn:Htruthy; [done|].
    apply list_truthy_nil, fmap_nil_inv, filter_nil_Forall in Htruthy.
    destruct Hnot. eapply Forall_impl; [exact Htruthy|].
    intros name Hname. cbn [keys] in Hname.
    by destruct (decide (name ∈ dom d)).
Qed.

Lemma one_group_by_keyword group api_method (api : VkApi.t) (d : dict) w :
  check_params (Parameters None (Some [group]))
    (VkApi.delegate urljoin prepare_url requests_request api_method)
    [VkApi.Self api] {[ "params" := PyDict d ]} w
  = admit_if_any group
      (VkApi._send_api_request urljoin prepare_url requests_request
         api api_method) d w.
Proof.
  rewrite decorated_delegate_by_keyword, set_errors_spec.
  cbn [fst snd get_required_params get_or_params from_option id].
  unfold required_errors, or_errors. rewrite filter_nil, filter_cons, filter_nil.
  cbn [fmap list_fmap app]. unfold admit_if_any.
  destruct (decide (no_member_present (PyDict d) group)) as [Hnone|Hsome].
  - rewrite decide_False; [done|].
    intros Hsome. by apply (some_member_present (PyDict d) group) in Hsome.
  - rewrite decide_True; [done|].
    by apply (some_member_present (PyDict d) group).
Qed.

(** X12: called as [op(params=d)], each operation decorated with required
    names sends its request exactly when every required name is a key of
    [d], and otherwise raises [MissingParams] with the message of each
    absent name, leaving the world as it was.  The names are [post_id] for
    [delete_post], [get_comment] and [create_comment], [group_id] for
    [upload_photo] and [save_video], the four names [group_id], [server],
    [photo], [hash] for [save_photo], and [users_id] for
    [get_users_info]. *)
Theorem operations_with_required_names
    (api : VkApi.t) (d : dict) (w : list event) :
  let call op := op [VkApi.Self api] ({[ "params" := PyDict d ]} : gmap string pyval) w in
  let send := VkApi._send_api_request urljoin prepare_url requests_request api in
  call (VkApi.delete_post urljoin prepare_url requests_request)
  = admit_if_all ["post_id"] (send "wall.delete") d w
  ∧ call (VkApi.get_comment urljoin prepare_url requests_request)
    = admit_if_all ["post_id"] (send "wall.getComment") d w
  ∧ call (VkApiOperations.create_comment urljoin prepare_url requests_request)
    = admit_if_all ["post_id"] (send "wall.createComment") d w
  ∧ call (VkApiOperations.upload_photo urljoin prepare_url requests_request)
    = admit_if_all ["group_id"] (send "photos.getWallUploadServer") d w
  ∧ call (VkApiOperations.save_video urljoin prepare_url requests_request)
    = admit_if_all ["group_id"] (send "video.save") d w
  ∧ call (VkApi.save_photo urljoin prepare_url requests_request)
    = admit_if_all ["group_id"; "server"; "photo"; "hash"]
        (send "photos.saveWallPhoto") d w
  ∧ call (VkApiOperations.get_users_info urljoin prepare_url requests_request)
    = admit_if_all ["users_id"] (send "users.get") d w.
Proof.
  intros call send. subst call send. cbv beta.
  repeat split; apply required_names_by_keyword.
Qed.

(** X13: called as [op(params=d)], each operation decorated with one group
    of alternatives sends its request exactly when some name of the group
    is a key of [d], and otherwise raises [MissingParams] with the message
    of the group, after the rule has printed it.  The groups are [message],
    [attachments] for [publish_post], [post_id], [comment_id] for
    [get_comments], and [user_id], [peer_id] for [get_history]. *)
Theorem operations_with_one_group_of_alternatives
    (api : VkApi.t) (d : dict) (w : list event) :
  let call op := op [VkApi.Self api] ({[ "params" := PyDict d ]} : gmap string pyval) w in
  let send := VkApi._send_api_request urljoin prepare_url requests_request api in
  call (VkApi.publish_post urljoin prepare_url requests_request)
  = admit_if_any ["message"; "attachments"] (send "wall.post") d w
  ∧ call (VkApi.get_comments urljoin prepare_url requests_request)
    = admit_if_any ["post_id"; "comment_id"] (send "wall.getComments") d w
  ∧ call (VkApiOperations.get_history urljoin prepare_url requests_request)
    = admit_if_any ["user_id"; "peer_id"] (send "messages.getHistory") d w.
Proof.
  intros call send. subst call send. cbv beta.
  repeat split; apply one_group_by_keyword.
Qed.

(** The operations without a decorator validate nothing: called as
    [op(params=v)], [get_posts] and [get_conversations] are
    [_send_api_request] on their method and [v], for every [v], the empty
    container and [None] included. *)
Lemma undecorated_operations_validate_nothing
    (api : VkApi.t) (v : pyval) (w : list event) :
  VkApi.get_posts urljoin prepare_url requests_request
    [VkApi.Self api] {[ "params" := v ]} w
  = VkApi._send_api_request urljoin prepare_url requests_request
      api "wall.get" v w
  ∧ VkApiOperations.get_conversations urljoin prepare_url requests_request
      [VkApi.Self api] {[ "params" := v ]} w
    = VkApi._send_api_request urljoin prepare_url requests_request
        api "messages.getConversations" v w.
Proof. split; apply delegate_by_keyword. Qed.

End operations.

(** ** Decorators on top of each other *)

(** X14: a function decorated twice is validated by the outer decorator
    first: when the outer configuration fails, only its errors are raised
    and the inner validation does not run (it prints nothing); when it
    passes, the call is the call of the function decorated with the inner
    configuration alone.  Decorating twice with the same configuration is
    the same as decorating once. *)
Theorem stacked_decorators_validate_outermost_first {Arg R : Type}
    (outer inner : parameters) (func : list Arg → gmap string pyval → M R)
    (args : list Arg) (kwargs : gmap string pyval) (w : list event) :
  let validated := set_errors outer (kwargs_get kwargs "params") in
  check_params outer (check_params inner func) args kwargs w
  = (if list_truthy validated.1
     then (Raise (MissingParams validated.1), w ++ validated.2)
     else check_params inner func args kwargs w)
  ∧ check_params outer (check_params outer func) args kwargs w
    = check_params outer func args kwargs w.
Proof.
  intros validated.
  assert (∀ f : list Arg → gmap string pyval → M R,
            check_params outer f args kwargs w
            = if list_truthy validated.1
              then (Raise (MissingParams validated.1), w ++ validated.2)
              else f args kwargs w) as Houter.
  { intros f. unfold check_params, validated. rewrite wrapper_unfold. cbv zeta.
    destruct (list_truthy _) eqn:Htruthy; [done|].
    apply list_truthy_nil in Htruthy.
    by rewrite (set_errors_nil_output _ _ Htruthy), app_nil_r. }
  split; [apply Houter|].
  rewrite (Houter (check_params outer func)), (Houter func).
  by destruct (list_truthy validated.1).
Qed.
